(** * Device Gateway Service

    A shallow embedding of [src/index.js]: an Express application with the
    routes [POST /register-device], [POST /upload-data] (behind the
    [authenticateDevice] middleware), [GET /list-devices] and [GET /health],
    backed by one table, [devicesTable], of a remote PostgREST datastore.

    The handlers are [async] functions that await the datastore, draw random
    bytes and write to the console.  They are embedded in a state monad over
    a [World] that holds the table, the console and two cursors into the
    environment's oracles: which datastore requests fail, and which bytes the
    random source delivers. *)

From Stdlib Require Import String Ascii List ZArith NArith Lia Bool PrimFloat.
From Stdlib.Strings Require Import Byte.
Import ListNotations.
Open Scope string_scope.

Set Warnings "-register-all".

(** ** JavaScript values *)

(** A parsed JSON document, as [bodyParser.json()] leaves it in [req.body].
    Numbers are IEEE 754 doubles, as in JavaScript. *)
Inductive JSON : Type :=
| JNull
| JBool (b : bool)
| JNumber (x : float)
| JString (s : string)
| JArray (items : list JSON)
| JObject (members : list (string * JSON)).

(** ECMAScript's [ToBoolean]: what [if (v)] and [!v] look at. *)
Class Truthiness (A : Type) : Type := ToBoolean : A -> bool.

#[export] Instance truthiness_string : Truthiness string :=
  fun s => negb (s =? "").

(** [null], [false], [0], [-0], [NaN] and the empty string are falsy; every
    array and every object is truthy, the empty ones included. *)
#[export] Instance truthiness_JSON : Truthiness JSON :=
  fun v =>
    match v with
    | JNull => false
    | JBool b => b
    | JNumber x => negb (PrimFloat.eqb x PrimFloat.zero || PrimFloat.is_nan x)
    | JString s => ToBoolean s
    | JArray _ => true
    | JObject _ => true
    end.

(** A property that may be absent: [None] is [undefined], which is falsy. *)
#[export] Instance truthiness_option {A} `{Truthiness A} : Truthiness (option A) :=
  fun o => match o with Some v => ToBoolean v | None => false end.

(** String conversion of a string-or-undefined value, as a template literal
    and the query builder perform it. *)
Definition String_ (v : option string) : string :=
  match v with Some s => s | None => "undefined" end.

(** ** Requests and responses *)

Module Headers.
(** [req.headers], restricted to the two fields the service reads. *)
Record t : Type := Build { device : option string; token : option string }.
End Headers.

Module Body.
(** [req.body], restricted to the two fields the service reads:
    [{ deviceId: string }] for registration, [{ data: any }] for upload. *)
Record t : Type := Build { deviceId : option string; data : option JSON }.
End Body.

Record Request : Type := mkRequest { headers : Headers.t; body : Body.t }.

(** How a handler or middleware ends: [res.status(s).json(b)] or [next()]. *)
Inductive Outcome : Type :=
| Send (status : Z) (json : JSON)
| Next.

Definition status_of (o : Outcome) : option Z :=
  match o with Send s _ => Some s | Next => None end.

(** ** The datastore client *)

(** A row of [devicesTable]. *)
Record Device : Type := mkDevice { device_id : string; token : string }.

Definition json_of_device (r : Device) : JSON :=
  JObject [("device_id", JString (device_id r)); ("token", JString (token r))].

Module Pg.

Record Error : Type := mkError { code : string; message : string }.

(** [data] of a response: [null], one row (after [.single()]) or an array. *)
Inductive Data : Type :=
| Null
| Row (r : Device)
| Rows (rs : list Device).

Record Response : Type := mkResponse { data : Data; error : option Error }.

Inductive Filter : Type := Eq (column value : string).

(** What the builder chain has accumulated when it is awaited. *)
Inductive Query : Type :=
| Select (table columns : string) (filters : list Filter) (one : bool)
| Insert (table : string) (rows : list Device).

Definition from (table : string) : string := table.
Definition select (columns : string) (table : string) : Query :=
  Select table columns [] false.
Definition eq (column value : string) (q : Query) : Query :=
  match q with
  | Select t c fs one => Select t c (fs ++ [Eq column value])%list one
  | Insert t rows => Insert t rows
  end.
Definition single (q : Query) : Query :=
  match q with
  | Select t c fs _ => Select t c fs true
  | Insert t rows => Insert t rows
  end.
Definition insert (rows : list Device) (table : string) : Query :=
  Insert table rows.

Definition json_of_error (e : Error) : JSON :=
  JObject [("code", JString (code e)); ("message", JString (message e))].

Definition json_of_nullable_error (o : option Error) : JSON :=
  match o with Some e => json_of_error e | None => JNull end.

Definition json_of_data (d : Data) : JSON :=
  match d with
  | Null => JNull
  | Row r => json_of_device r
  | Rows rs => JArray (map json_of_device rs)
  end.

Definition is_insert (q : Query) : bool :=
  match q with Insert _ _ => true | Select _ _ _ _ => false end.

End Pg.

#[export] Instance truthiness_Data : Truthiness Pg.Data :=
  fun d => match d with Pg.Null => false | Pg.Row _ => true | Pg.Rows _ => true end.

#[export] Instance truthiness_Error : Truthiness Pg.Error := fun _ => true.

Notation "q |> f" := (f q) (at level 45, left associativity, only parsing).

(** The error [.single()] answers with when the result is not exactly one
    row. *)
Definition PGRST116 : Pg.Error :=
  Pg.mkError "PGRST116" "JSON object requested, multiple (or no) rows returned".

Definition undefined_table : Pg.Error := Pg.mkError "42P01" "relation does not exist".
Definition undefined_column : Pg.Error := Pg.mkError "42703" "column does not exist".

Definition column_of (c : string) : option (Device -> string) :=
  if c =? "device_id" then Some device_id
  else if c =? "token" then Some token
  else None.

(** The rows a list of equality filters keeps: all filters must hold.
    [None] when a filter names a column the table does not have. *)
Fixpoint keep (fs : list Pg.Filter) : option (Device -> bool) :=
  match fs with
  | [] => Some (fun _ => true)
  | Pg.Eq c v :: fs' =>
      match column_of c, keep fs' with
      | Some get, Some rest => Some (fun r => (get r =? v) && rest r)
      | _, _ => None
      end
  end.

(** ** Hex encoding and the random source *)

Definition hex_digit (n : N) : ascii :=
  match String.get (N.to_nat n) "0123456789abcdef" with
  | Some c => c
  | None => "0"%char
  end.

(** [Buffer.prototype.toString("hex")]: two lowercase digits per byte, the
    high nibble first. *)
Fixpoint toString_hex (buf : list byte) : string :=
  match buf with
  | [] => ""
  | b :: rest =>
      String (hex_digit (N.shiftr (Byte.to_N b) 4))
        (String (hex_digit (N.land (Byte.to_N b) 15)) (toString_hex rest))
  end.

Definition is_lower_hex (c : ascii) : bool :=
  let n := N_of_ascii c in
  ((48 <=? n) && (n <=? 57) || (97 <=? n) && (n <=? 102))%N.

Fixpoint string_forall (p : ascii -> bool) (s : string) : bool :=
  match s with
  | EmptyString => true
  | String c s' => p c && string_forall p s'
  end.

(** ** The world the handlers run in *)

Record World : Type := mkWorld {
  devicesTable : list Device;      (* the rows of the remote table *)
  calls : nat;                     (* datastore requests awaited so far *)
  drawn : nat;                     (* random bytes consumed so far *)
  console : list (list JSON);      (* console.log / console.error lines *)
  journal : list Pg.Query          (* the requests awaited, oldest first *)
}.

(** An [async] computation: it runs to its end in a world and leaves a
    world.  Handlers run one at a time. *)
Definition M (A : Type) : Type := World -> A * World.

Definition ret {A} (a : A) : M A := fun w => (a, w).
Definition bind {A B} (c : M A) (k : A -> M B) : M B :=
  fun w => let (a, w') := c w in k a w'.

Notation "x <- c ;; k" := (bind c (fun x => k))
  (at level 100, c at next level, right associativity).
Notation "c ;;; k" := (bind c (fun _ => k))
  (at level 100, right associativity).

Definition console_log (args : list JSON) : M unit :=
  fun w => (tt, mkWorld (devicesTable w) (calls w) (drawn w)
                        (console w ++ [args])%list (journal w)).

(** The service has just started: nothing registered, nothing awaited. *)
Definition boot : World := mkWorld [] 0 0 [] [].

Module Gateway.

Section Environment.

(** The environment: [fault_at n] is the failure, if any, that the [n]-th
    datastore request meets (network, credentials, server); [random_byte i]
    is the [i]-th byte the operating system's random source delivers. *)
Variable fault_at : nat -> option Pg.Error.
Variable random_byte : nat -> byte.

(** Modelled from the spec: the datastore client ([@supabase/supabase-js])
    is an external collaborator and not part of the sources.  Section 6 of
    the specification lists what it supports: select by equality filter on
    one or several fields, single-row fetch, unfiltered full-table fetch and
    row insert; section 3 says the table has no uniqueness constraint, and
    section 7 that each call is atomic: it answers, or it fails and leaves
    the table as it was.  A single-row fetch answers with the row when
    exactly one row passes the filters and with error [PGRST116] otherwise,
    which is the code the registration handler tests for. *)
Definition answer (q : Pg.Query) (rows : list Device) : Pg.Response * list Device :=
  match q with
  | Pg.Select t _ fs one =>
      if negb (t =? "devicesTable") then (Pg.mkResponse Pg.Null (Some undefined_table), rows)
      else
        match keep fs with
        | None => (Pg.mkResponse Pg.Null (Some undefined_column), rows)
        | Some p =>
            let found := filter p rows in
            if one then
              match found with
              | [r] => (Pg.mkResponse (Pg.Row r) None, rows)
              | _ => (Pg.mkResponse Pg.Null (Some PGRST116), rows)
              end
            else (Pg.mkResponse (Pg.Rows found) None, rows)
        end
  | Pg.Insert t new =>
      if negb (t =? "devicesTable") then (Pg.mkResponse Pg.Null (Some undefined_table), rows)
      else (Pg.mkResponse Pg.Null None, (rows ++ new)%list)
  end.

(** [await <query>]: one round trip to the datastore.  The environment
    decides whether the request gets through; one that does not leaves the
    table alone and comes back as [{ data: null, error }]. *)
Definition await (q : Pg.Query) : M Pg.Response :=
  fun w =>
    let (r, rows) :=
      match fault_at (calls w) with
      | Some e => (Pg.mkResponse Pg.Null (Some e), devicesTable w)
      | None => answer q (devicesTable w)
      end in
    (r, mkWorld rows (S (calls w)) (drawn w) (console w) (journal w ++ [q])%list).

(** [crypto.randomBytes(n)]. *)
Definition randomBytes (n : nat) : M (list byte) :=
  fun w => (map random_byte (seq (drawn w) n),
            mkWorld (devicesTable w) (calls w) (drawn w + n) (console w) (journal w)).

(** index.js, lines 18-20. *)
Definition generateToken : M string :=
  buf <- randomBytes 16 ;;
  ret (toString_hex buf).

Definition error_body (msg : string) : JSON := JObject [("error", JString msg)].
Definition message_body (msg : string) : JSON := JObject [("message", JString msg)].

(** [fetchError && fetchError.code !== "PGRST116"]. *)
Definition other_than_PGRST116 (fetchError : option Pg.Error) : bool :=
  match fetchError with
  | Some e => negb (Pg.code e =? "PGRST116")
  | None => false
  end.

(** index.js, lines 28-65: [app.post("/register-device", ...)]. *)
Definition register_device (req : Request) : M Outcome :=
  let deviceId := Body.deviceId (body req) in
  if negb (ToBoolean deviceId) then
    ret (Send 400 (error_body "Device ID is required."))
  else
    (* truthy, hence a string that is not empty *)
    let deviceId := String_ deviceId in
    r <- await (Pg.from "devicesTable" |> Pg.select "*"
                  |> Pg.eq "device_id" deviceId |> Pg.single) ;;
    let existingDevice := Pg.data r in
    let fetchError := Pg.error r in
    if other_than_PGRST116 fetchError then
      console_log [Pg.json_of_nullable_error fetchError] ;;;
      ret (Send 500 (error_body "Error checking device existence."))
    else if ToBoolean existingDevice then
      ret (Send 400 (error_body "Device ID is already registered."))
    else
      token <- generateToken ;;
      r' <- await (Pg.from "devicesTable" |> Pg.insert [mkDevice deviceId token]) ;;
      let insertError := Pg.error r' in
      match insertError with
      | Some e =>
          console_log [Pg.json_of_error e] ;;;
          ret (Send 500 (error_body "Error registering device."))
      | None =>
          ret (Send 201 (JObject [("message", JString "Device registered successfully.");
                                  ("deviceId", JString deviceId);
                                  ("token", JString token)]))
      end.

(** index.js, lines 70-92: the [authenticateDevice] middleware. *)
Definition authenticateDevice (req : Request) : M Outcome :=
  let device := Headers.device (headers req) in
  let token := Headers.token (headers req) in
  if negb (ToBoolean device) || negb (ToBoolean token) then
    ret (Send 401 (error_body "Device ID and token are required."))
  else
    r <- await (Pg.from "devicesTable" |> Pg.select "*"
                  |> Pg.eq "device_id" (String_ device)
                  |> Pg.eq "token" (String_ token) |> Pg.single) ;;
    let deviceRecord := Pg.data r in
    let error := Pg.error r in
    if ToBoolean error || negb (ToBoolean deviceRecord) then
      ret (Send 403 (error_body "Invalid token or unauthorized device."))
    else
      ret Next.

(** index.js, lines 101-110: the handler behind the middleware. *)
Definition upload_data (req : Request) : M Outcome :=
  let data := Body.data (body req) in
  if negb (ToBoolean data) then
    ret (Send 400 (error_body "Data is required for upload."))
  else
    console_log [JString ("Data received from " ++ String_ (Headers.device (headers req)) ++ ":");
                 match data with Some v => v | None => JNull end] ;;;
    ret (Send 200 (message_body "Data uploaded successfully.")).

(** Express runs the handlers of a route in order; one that answers
    instead of calling [next()] ends the chain. *)
Definition chain (middleware handler : Request -> M Outcome) (req : Request) : M Outcome :=
  o <- middleware req ;;
  match o with
  | Next => handler req
  | Send _ _ => ret o
  end.

(** [app.post("/upload-data", authenticateDevice, ...)]. *)
Definition post_upload_data : Request -> M Outcome :=
  chain authenticateDevice upload_data.

(** index.js, lines 117-129: [app.get("/list-devices", ...)]. *)
Definition list_devices (req : Request) : M Outcome :=
  r <- await (Pg.from "devicesTable" |> Pg.select "*") ;;
  let devices := Pg.data r in
  match Pg.error r with
  | Some e =>
      console_log [JString "Error fetching devices:"; JString (Pg.message e)] ;;;
      ret (Send 500 (error_body "Error fetching device list."))
  | None =>
      console_log [JString "Devices fetched from Supabase:"; Pg.json_of_data devices] ;;;
      ret (Send 200 (JObject [("devices", Pg.json_of_data devices)]))
  end.

(** index.js, lines 136-138: [app.get("/health", ...)]. *)
Definition health (req : Request) : M Outcome :=
  ret (Send 200 (message_body "Server is up and running.")).

Inductive Route : Type :=
| POST_register_device
| POST_upload_data
| GET_list_devices
| GET_health.

Definition app (route : Route) : Request -> M Outcome :=
  match route with
  | POST_register_device => register_device
  | POST_upload_data => post_upload_data
  | GET_list_devices => list_devices
  | GET_health => health
  end.

(** The service handling requests one after the other. *)
Fixpoint serve (reqs : list (Route * Request)) : M (list Outcome) :=
  match reqs with
  | [] => ret []
  | (route, req) :: rest =>
      o <- app route req ;;
      os <- serve rest ;;
      ret (o :: os)
  end.

End Environment.

End Gateway.

Import Gateway.

(** ** Vocabulary of the properties *)

(** Property access on a JSON value: [v[k]], [None] for [undefined]. *)
Fixpoint member_of (k : string) (ms : list (string * JSON)) : option JSON :=
  match ms with
  | [] => None
  | (k', v) :: rest => if k' =? k then Some v else member_of k rest
  end.

Definition member (k : string) (v : JSON) : option JSON :=
  match v with JObject ms => member_of k ms | _ => None end.

(** The credentials a response hands out: those of a 201 answer of
    [POST /register-device], nothing for any other answer. *)
Definition issued (exchange : Route * Outcome) : list Device :=
  match exchange with
  | (POST_register_device, Send s b) =>
      if (s =? 201)%Z then
        match member "deviceId" b, member "token" b with
        | Some (JString d), Some (JString t) => [mkDevice d t]
        | _, _ => []
        end
      else []
  | _ => []
  end.

(** A successful registration: a 201 answer of [POST /register-device]. *)
Definition is_registration (exchange : Route * Outcome) : bool :=
  match exchange with
  | (POST_register_device, Send s _) => (s =? 201)%Z
  | _ => false
  end.

(** The routes requested, each with the answer it got. *)
Definition exchanges (reqs : list (Route * Request)) (os : list Outcome)
  : list (Route * Outcome) :=
  combine (map fst reqs) os.

Definition has_id (d : string) (r : Device) : bool := device_id r =? d.

Definition has_credentials (d t : string) (r : Device) : bool :=
  (device_id r =? d) && (token r =? t).

(** The two single-row lookups the handlers build. *)
Definition existence_check (deviceId : string) : Pg.Query :=
  Pg.Select "devicesTable" "*" [Pg.Eq "device_id" deviceId] true.

Definition credential_check (device token : string) : Pg.Query :=
  Pg.Select "devicesTable" "*" [Pg.Eq "device_id" device; Pg.Eq "token" token] true.

(** A datastore request has been awaited: one more call, one more journal
    entry; the table is whatever the request left. *)
Definition awaited (q : Pg.Query) (rows : list Device) (w : World) : World :=
  mkWorld rows (S (calls w)) (drawn w) (console w) (journal w ++ [q])%list.

Definition logged (line : list JSON) (w : World) : World :=
  mkWorld (devicesTable w) (calls w) (drawn w) (console w ++ [line])%list (journal w).

(** Failures injected by the environment are never the row-count error of a
    single-row fetch: that one comes from the result set alone. *)
Definition genuine (fault_at : nat -> option Pg.Error) : Prop :=
  forall n e, fault_at n = Some e -> Pg.code e <> "PGRST116".

Definition unique_ids (rows : list Device) : Prop := NoDup (map device_id rows).

Definition credentials (device token : string) : Request :=
  mkRequest (Headers.Build (Some device) (Some token)) (Body.Build None None).

Definition registration (deviceId : string) : Request :=
  mkRequest (Headers.Build None None) (Body.Build (Some deviceId) None).

Definition forbidden : Outcome :=
  Send 403 (JObject [("error", JString "Invalid token or unauthorized device.")]).

(** ** A concrete scenario

    The service boots with an empty table, a datastore that answers every
    request and a random source that counts 0, 1, 2, ...; ["sensor-1"]
    registers, and requests follow with its credentials. *)

(** What the client reports when the datastore cannot be reached. *)
Definition fetch_failed : Pg.Error := Pg.mkError "" "TypeError: fetch failed".

(** Three environments: the datastore answers every request, none, or all
    but its [k]-th. *)
Definition reliable : nat -> option Pg.Error := fun _ => None.
Definition outage : nat -> option Pg.Error := fun _ => Some fetch_failed.
Definition fails_at (k : nat) : nat -> option Pg.Error :=
  fun n => if Nat.eqb n k then Some fetch_failed else None.

(** A random source that counts: byte [i] is [i mod 256]. *)
Definition counting_bytes : nat -> byte :=
  fun i => match Byte.of_N (N.of_nat i mod 256) with Some b => b | None => x00 end.

Definition sensor_1 : Request := registration "sensor-1".

Definition sensor_1_token : string := "000102030405060708090a0b0c0d0e0f".

Definition sensor_1_answer : JSON :=
  JObject [("message", JString "Device registered successfully.");
           ("deviceId", JString "sensor-1");
           ("token", JString sensor_1_token)].

Definition sensor_1_registered : World :=
  snd (register_device reliable counting_bytes sensor_1 boot).

Definition later : list (Route * Request) :=
  [(POST_register_device, registration "sensor-2");
   (POST_upload_data, credentials "sensor-2" "guess");
   (GET_list_devices, registration "")].

Definition upload (device token : string) (data : option JSON) : Request :=
  mkRequest (Headers.Build (Some device) (Some token)) (Body.Build None data).

Definition reading : JSON := JObject [("temp", JNumber 21.5%float)].

(** A table in which the same credentials occur twice. *)
Definition duplicated : World :=
  mkWorld [mkDevice "sensor-1" sensor_1_token; mkDevice "sensor-1" sensor_1_token]
          0 0 [] [].

(** ** Vocabulary of the service-wide properties *)

(** Reading a token back: [Buffer.from(s, "hex")], two digits per byte. *)
Definition hex_value (c : ascii) : N :=
  let n := N_of_ascii c in
  if ((48 <=? n) && (n <=? 57))%N then (n - 48)%N
  else if ((97 <=? n) && (n <=? 102))%N then (n - 87)%N
  else 0%N.

Definition byte_of_hex (hi lo : ascii) : byte :=
  match Byte.of_N (16 * hex_value hi + hex_value lo) with
  | Some b => b
  | None => x00
  end.

Fixpoint from_hex (s : string) : list byte :=
  match s with
  | String hi (String lo rest) => byte_of_hex hi lo :: from_hex rest
  | _ => []
  end.

(** A row as registration writes it: an identifier that is not empty and a
    token of 32 lowercase hexadecimal digits. *)
Definition well_formed (r : Device) : Prop :=
  device_id r <> "" /\
  String.length (token r) = 32 /\
  string_forall is_lower_hex (token r) = true.

(** The status codes each route can answer with. *)
Definition statuses (route : Route) : list Z :=
  match route with
  | POST_register_device => [201; 400; 500]
  | POST_upload_data => [200; 400; 401; 403]
  | GET_list_devices => [200; 500]
  | GET_health => [200]
  end%Z.

(** A world the service has reached by handling requests one after the
    other, from an empty table. *)
Definition served (fault_at : nat -> option Pg.Error) (random_byte : nat -> byte)
  (w : World) : Prop :=
  exists w0 reqs, devicesTable w0 = [] /\ w = snd (serve fault_at random_byte reqs w0).

(** A table in which ["sensor-1"] has two rows with different tokens, as two
    registrations that both passed the existence check leave it. *)
Definition raced : World :=
  mkWorld [mkDevice "sensor-1" sensor_1_token;
           mkDevice "sensor-1" "101112131415161718191a1b1c1d1e1f"]
          4 32 [] [].

(** ** Handlers as the event loop runs them

    An [async] handler gives up control at each [await]: other handlers run
    until the datastore's answer arrives.  A [Task] is a handler at such a
    point: it has answered, or it waits for the answer to a request.  The
    registration handler is cut at its two [await]s into the three pieces the
    event loop runs. *)

Inductive Task : Type :=
| Answered (o : Outcome)
| Suspended (q : Pg.Query) (resume : Pg.Response -> M Task).

Inductive Turn : Type := First | Second.

Section Tasks.

Variable fault_at : nat -> option Pg.Error.
Variable random_byte : nat -> byte.

(** index.js, lines 57-64: after [await ... .insert(...)]. *)
Definition after_insert (deviceId token : string) (r' : Pg.Response) : M Task :=
  let insertError := Pg.error r' in
  match insertError with
  | Some e =>
      console_log [Pg.json_of_error e] ;;;
      ret (Answered (Send 500 (error_body "Error registering device.")))
  | None =>
      ret (Answered
             (Send 201 (JObject [("message", JString "Device registered successfully.");
                                 ("deviceId", JString deviceId);
                                 ("token", JString token)])))
  end.

(** index.js, lines 42-55: after [await ... .single()], up to the insert. *)
Definition after_check (deviceId : string) (r : Pg.Response) : M Task :=
  let existingDevice := Pg.data r in
  let fetchError := Pg.error r in
  if other_than_PGRST116 fetchError then
    console_log [Pg.json_of_nullable_error fetchError] ;;;
    ret (Answered (Send 500 (error_body "Error checking device existence.")))
  else if ToBoolean existingDevice then
    ret (Answered (Send 400 (error_body "Device ID is already registered.")))
  else
    token <- generateToken random_byte ;;
    ret (Suspended (Pg.from "devicesTable" |> Pg.insert [mkDevice deviceId token])
                   (after_insert deviceId token)).

(** index.js, lines 28-40: from the arrival of the request to the first
    [await]. *)
Definition register_device_task (req : Request) : M Task :=
  let deviceId := Body.deviceId (body req) in
  if negb (ToBoolean deviceId) then
    ret (Answered (Send 400 (error_body "Device ID is required.")))
  else
    (* truthy, hence a string that is not empty *)
    let deviceId := String_ deviceId in
    ret (Suspended (Pg.from "devicesTable" |> Pg.select "*"
                      |> Pg.eq "device_id" deviceId |> Pg.single)
                   (after_check deviceId)).

(** The datastore handles the request a task waits for, and the task runs
    on to its next [await] or to its answer. *)
Definition resume (t : Task) : M Task :=
  match t with
  | Answered o => ret (Answered o)
  | Suspended q k => r <- await fault_at q ;; k r
  end.

(** A task left alone runs to its answer; [fuel] bounds the requests it may
    await. *)
Fixpoint complete (fuel : nat) (t : Task) : M (option Outcome) :=
  match t with
  | Answered o => ret (Some o)
  | Suspended _ _ =>
      match fuel with
      | O => ret None
      | S fuel' => t' <- resume t ;; complete fuel' t'
      end
  end.

(** Two tasks in flight, resumed in the order the answers arrive. *)
Fixpoint interleave (turns : list Turn) (a b : Task) : M (Task * Task) :=
  match turns with
  | [] => ret (a, b)
  | First :: rest => a' <- resume a ;; interleave rest a' b
  | Second :: rest => b' <- resume b ;; interleave rest a b'
  end.

(** Two registration requests arrive one after the other, before the
    datastore has answered anything. *)
Definition two_registrations (turns : list Turn) (reqA reqB : Request)
  : M (Task * Task) :=
  a <- register_device_task reqA ;;
  b <- register_device_task reqB ;;
  interleave turns a b.

End Tasks.

(** More of the scenario: the token drawn after that of ["sensor-1"], a
    reading of zero, a request with a payload and no credentials. *)
Definition second_token : string := "101112131415161718191a1b1c1d1e1f".

Definition third_token : string := "202122232425262728292a2b2c2d2e2f".

Definition zero_reading : Request :=
  upload "sensor-1" sensor_1_token (Some (JNumber 0%float)).

Definition anonymous_upload : Request :=
  mkRequest (Headers.Build None None) (Body.Build None (Some reading)).

(** * Properties *)

(** ** Truthiness *)

Lemma ToBoolean_string (s : string) : ToBoolean s = true <-> s <> "".
Proof.
  unfold ToBoolean, truthiness_string.
  destruct (String.eqb_spec s ""); simpl; split; congruence.
Qed.

Lemma ToBoolean_present (o : option string) :
  ToBoolean o = true <-> exists s, o = Some s /\ s <> "".
Proof.
  destruct o as [s|]; simpl.
  - change (ToBoolean (Some s)) with (ToBoolean s). rewrite ToBoolean_string.
    split; [intros H; exists s; auto | intros (s' & E & H); congruence].
  - split; [discriminate | intros (s' & E & _); discriminate].
Qed.

Lemma ToBoolean_absent (o : option string) :
  ToBoolean o = false <-> o = None \/ o = Some "".
Proof.
  destruct o as [s|].
  - change (ToBoolean (Some s)) with (negb (s =? "")).
    destruct (String.eqb_spec s ""); simpl; split; intros H;
      try subst; auto; try discriminate.
    destruct H as [H|H]; [discriminate | congruence].
  - split; auto.
Qed.

(** ** Hex encoding *)

Lemma length_toString_hex (buf : list byte) :
  String.length (toString_hex buf) = 2 * List.length buf.
Proof. induction buf as [|b buf IH]; simpl; [reflexivity | rewrite IH; lia]. Qed.

Lemma hex_digits_of_byte (b : byte) :
  is_lower_hex (hex_digit (N.shiftr (Byte.to_N b) 4)) = true /\
  is_lower_hex (hex_digit (N.land (Byte.to_N b) 15)) = true.
Proof. destruct b; split; reflexivity. Qed.

Lemma lower_hex_toString_hex (buf : list byte) :
  string_forall is_lower_hex (toString_hex buf) = true.
Proof.
  induction buf as [|b buf IH]; [reflexivity|].
  cbn [toString_hex string_forall].
  destruct (hex_digits_of_byte b) as [Hhi Hlo].
  rewrite Hhi, Hlo, IH. reflexivity.
Qed.

(** ** The datastore *)

Section Properties.

Variable fault_at : nat -> option Pg.Error.
Variable random_byte : nat -> byte.

Local Abbreviation await := (await fault_at).
Local Abbreviation register_device := (register_device fault_at random_byte).
Local Abbreviation authenticateDevice := (authenticateDevice fault_at).
Local Abbreviation post_upload_data := (post_upload_data fault_at).
Local Abbreviation list_devices := (list_devices fault_at).
Local Abbreviation app := (app fault_at random_byte).
Local Abbreviation serve := (serve fault_at random_byte).

Lemma keep_device_id d :
  keep [Pg.Eq "device_id" d] = Some (fun r => (device_id r =? d) && true).
Proof. reflexivity. Qed.

Lemma keep_credentials d t :
  keep [Pg.Eq "device_id" d; Pg.Eq "token" t]
  = Some (fun r => (device_id r =? d) && ((token r =? t) && true)).
Proof. reflexivity. Qed.

Lemma await_existence_check d w :
  await (existence_check d) w =
  (match fault_at (calls w) with
   | Some e => Pg.mkResponse Pg.Null (Some e)
   | None =>
       match filter (has_id d) (devicesTable w) with
       | [r] => Pg.mkResponse (Pg.Row r) None
       | _ => Pg.mkResponse Pg.Null (Some PGRST116)
       end
   end, awaited (existence_check d) (devicesTable w) w).
Proof.
  unfold Gateway.await, awaited. destruct (fault_at (calls w)); [reflexivity|].
  unfold existence_check, answer. cbn [negb String.eqb Ascii.eqb Bool.eqb].
  rewrite keep_device_id.
  rewrite (filter_ext _ (has_id d)) by (intros r; unfold has_id; apply andb_true_r).
  destruct (filter (has_id d) (devicesTable w)) as [|r [|r' l]]; reflexivity.
Qed.

Lemma await_credential_check d t w :
  await (credential_check d t) w =
  (match fault_at (calls w) with
   | Some e => Pg.mkResponse Pg.Null (Some e)
   | None =>
       match filter (has_credentials d t) (devicesTable w) with
       | [r] => Pg.mkResponse (Pg.Row r) None
       | _ => Pg.mkResponse Pg.Null (Some PGRST116)
       end
   end, awaited (credential_check d t) (devicesTable w) w).
Proof.
  unfold Gateway.await, awaited. destruct (fault_at (calls w)); [reflexivity|].
  unfold credential_check, answer. cbn [negb String.eqb Ascii.eqb Bool.eqb].
  rewrite keep_credentials.
  rewrite (filter_ext _ (has_credentials d t))
    by (intros r; unfold has_credentials; now rewrite andb_true_r).
  destruct (filter (has_credentials d t) (devicesTable w)) as [|r [|r' l]]; reflexivity.
Qed.

(** ** Registration *)

(** The end of the handler: the token, the insert and its two outcomes. *)
Ltac insert_step w :=
  unfold generateToken, randomBytes, bind, ret, Gateway.await, Pg.insert, Pg.from;
  cbn [calls devicesTable drawn console journal awaited];
  let e := fresh "e" in
  destruct (fault_at (S (calls w))) as [e|];
  [left; exists e; split; reflexivity | right; split; reflexivity].

(** The five ways through [POST /register-device], each with the answer
    sent and the world left behind. *)
Lemma register_device_paths req w :
  (ToBoolean (Body.deviceId (body req)) = false /\
   register_device req w = (Send 400 (error_body "Device ID is required."), w))
  \/
  exists d, Body.deviceId (body req) = Some d /\ d <> "" /\
    let w1 := awaited (existence_check d) (devicesTable w) w in
    let T := toString_hex (map random_byte (seq (drawn w) 16)) in
    let q := Pg.Insert "devicesTable" [mkDevice d T] in
    let w2 := mkWorld (devicesTable w) (S (calls w)) (drawn w + 16) (console w)
                      (journal w ++ [existence_check d])%list in
    (exists e, fault_at (calls w) = Some e /\ Pg.code e <> "PGRST116" /\
       register_device req w
       = (Send 500 (error_body "Error checking device existence."),
          logged [Pg.json_of_error e] w1))
    \/
    (exists r, fault_at (calls w) = None /\ filter (has_id d) (devicesTable w) = [r] /\
       register_device req w
       = (Send 400 (error_body "Device ID is already registered."), w1))
    \/
    (((exists e, fault_at (calls w) = Some e /\ Pg.code e = "PGRST116") \/
      (fault_at (calls w) = None /\ forall r, filter (has_id d) (devicesTable w) <> [r])) /\
     ((exists e, fault_at (S (calls w)) = Some e /\
         register_device req w
         = (Send 500 (error_body "Error registering device."),
            logged [Pg.json_of_error e] (awaited q (devicesTable w) w2)))
      \/
      (fault_at (S (calls w)) = None /\
         register_device req w
         = (Send 201 (JObject [("message", JString "Device registered successfully.");
                               ("deviceId", JString d); ("token", JString T)]),
            awaited q (devicesTable w ++ [mkDevice d T])%list w2)))).
Proof.
  unfold Gateway.register_device.
  destruct (ToBoolean (Body.deviceId (body req))) eqn:Hd; cbn [negb]; [right | left; auto].
  apply ToBoolean_present in Hd as (d & -> & Hd). exists d. split; [reflexivity|]. split; [assumption|].
  cbn [String_]. unfold bind.
  change (Pg.from "devicesTable" |> Pg.select "*" |> Pg.eq "device_id" d |> Pg.single)
    with (existence_check d).
  rewrite await_existence_check.
  destruct (fault_at (calls w)) as [e|] eqn:Hf.
  - cbn [Pg.error Pg.data other_than_PGRST116].
    destruct (String.eqb_spec (Pg.code e) "PGRST116") as [He|He]; cbn [negb].
    + right; right. split; [left; exists e; auto|].
      change (ToBoolean Pg.Null) with false. cbv iota.
      insert_step w.
    + left. exists e. do 2 (split; [auto|]). reflexivity.
  - destruct (filter (has_id d) (devicesTable w)) as [|r [|r' l]] eqn:Hrows;
      cbn [Pg.error Pg.data other_than_PGRST116 PGRST116 Pg.code String.eqb Ascii.eqb Bool.eqb negb].
    + right; right. split; [right; split; [reflexivity | intros r; discriminate]|].
      change (ToBoolean Pg.Null) with false. cbv iota.
      insert_step w.
    + right; left. exists r. do 2 (split; [reflexivity|]). reflexivity.
    + right; right. split; [right; split; [reflexivity | intros r0; discriminate]|].
      change (ToBoolean Pg.Null) with false. cbv iota.
      insert_step w.
Qed.

(** ** Authentication *)

(** The three ways through the middleware. *)
Lemma authenticateDevice_paths req w :
  ((ToBoolean (Headers.device (headers req)) = false \/
    ToBoolean (Headers.token (headers req)) = false) /\
   authenticateDevice req w
   = (Send 401 (error_body "Device ID and token are required."), w))
  \/
  exists d t,
    Headers.device (headers req) = Some d /\ Headers.token (headers req) = Some t /\
    d <> "" /\ t <> "" /\
    let w1 := awaited (credential_check d t) (devicesTable w) w in
    (exists r, fault_at (calls w) = None /\
       filter (has_credentials d t) (devicesTable w) = [r] /\
       authenticateDevice req w = (Next, w1))
    \/
    (((exists e, fault_at (calls w) = Some e) \/
      (forall r, filter (has_credentials d t) (devicesTable w) <> [r])) /\
     authenticateDevice req w = (forbidden, w1)).
Proof.
  unfold Gateway.authenticateDevice.
  destruct (ToBoolean (Headers.device (headers req))) eqn:Hd; cbn [negb orb];
    [|left; auto].
  destruct (ToBoolean (Headers.token (headers req))) eqn:Ht; cbn [negb];
    [|left; auto].
  apply ToBoolean_present in Hd as (d & -> & Hd).
  apply ToBoolean_present in Ht as (t & -> & Ht).
  right. exists d, t. do 2 (split; [reflexivity|]). do 2 (split; [assumption|]).
  cbn [String_]. unfold bind.
  change (Pg.from "devicesTable" |> Pg.select "*" |> Pg.eq "device_id" d
            |> Pg.eq "token" t |> Pg.single)
    with (credential_check d t).
  rewrite await_credential_check.
  destruct (fault_at (calls w)) as [e|].
  - right. split; [left; exists e; reflexivity | reflexivity].
  - destruct (filter (has_credentials d t) (devicesTable w)) as [|r [|r' l]].
    + right. split; [right; intros r; discriminate | reflexivity].
    + left. exists r. repeat split.
    + right. split; [right; intros r0; discriminate | reflexivity].
Qed.

(** ** Listing *)

Lemma await_select_all w :
  await (Pg.from "devicesTable" |> Pg.select "*") w =
  (match fault_at (calls w) with
   | Some e => Pg.mkResponse Pg.Null (Some e)
   | None => Pg.mkResponse (Pg.Rows (devicesTable w)) None
   end, awaited (Pg.Select "devicesTable" "*" [] false) (devicesTable w) w).
Proof.
  unfold Gateway.await, awaited, Pg.select, Pg.from.
  destruct (fault_at (calls w)); [reflexivity|].
  unfold answer. cbn [negb String.eqb Ascii.eqb Bool.eqb keep].
  assert (Hall : forall rows : list Device, filter (fun _ => true) rows = rows)
    by (induction rows as [|r rows IH]; cbn [filter]; congruence).
  rewrite Hall. reflexivity.
Qed.

Lemma list_devices_paths req w :
  let w1 := awaited (Pg.Select "devicesTable" "*" [] false) (devicesTable w) w in
  (exists e, fault_at (calls w) = Some e /\
     list_devices req w
     = (Send 500 (error_body "Error fetching device list."),
        logged [JString "Error fetching devices:"; JString (Pg.message e)] w1))
  \/
  (fault_at (calls w) = None /\
     list_devices req w
     = (Send 200 (JObject [("devices", JArray (map json_of_device (devicesTable w)))]),
        logged [JString "Devices fetched from Supabase:";
                JArray (map json_of_device (devicesTable w))] w1)).
Proof.
  unfold Gateway.list_devices, bind. rewrite await_select_all.
  destruct (fault_at (calls w)) as [e|].
  - left. exists e. split; reflexivity.
  - right. split; reflexivity.
Qed.

(** ** Upload *)

Lemma upload_data_paths req w :
  (ToBoolean (Body.data (body req)) = false /\
   upload_data req w = (Send 400 (error_body "Data is required for upload."), w))
  \/
  (exists v, Body.data (body req) = Some v /\ ToBoolean v = true /\
     upload_data req w
     = (Send 200 (message_body "Data uploaded successfully."),
        logged [JString ("Data received from "
                         ++ String_ (Headers.device (headers req)) ++ ":"); v] w)).
Proof.
  unfold upload_data.
  destruct (Body.data (body req)) as [v|]; [|left; split; reflexivity].
  change (ToBoolean (Some v)) with (ToBoolean v).
  destruct (ToBoolean v) eqn:Hv; cbn [negb].
  - right. exists v. split; [reflexivity|]. split; [assumption | reflexivity].
  - left. split; reflexivity.
Qed.

(** ** What the table holds *)

Lemma filter_none {A} (p : A -> bool) (l : list A) :
  (forall x, In x l -> p x = false) -> filter p l = [].
Proof.
  induction l as [|a l IH]; intros H; [reflexivity|].
  cbn [filter]. rewrite (H a (or_introl eq_refl)). apply IH.
  intros x Hx. apply H. right. exact Hx.
Qed.

Lemma has_id_true d r : has_id d r = true <-> device_id r = d.
Proof. unfold has_id. apply String.eqb_eq. Qed.

Lemma has_credentials_true d t r :
  has_credentials d t r = true <-> r = mkDevice d t.
Proof.
  unfold has_credentials. rewrite andb_true_iff, !String.eqb_eq.
  destruct r as [d' t']; cbn [device_id token]. split.
  - intros [-> ->]. reflexivity.
  - intros [= -> ->]. auto.
Qed.

(** An identifier that is in the table once is found by the existence
    check. *)
Lemma unique_id_found rows d :
  unique_ids rows -> In d (map device_id rows) ->
  exists r, filter (has_id d) rows = [r].
Proof.
  unfold unique_ids. induction rows as [|r rows IH]; cbn [map filter]; intros Hu Hin.
  - destruct Hin.
  - inversion Hu as [|x l Hnot Hu']; subst.
    destruct (has_id d r) eqn:Hr.
    + apply has_id_true in Hr. subst d. exists r. f_equal.
      apply filter_none. intros x Hx.
      destruct (has_id (device_id r) x) eqn:Hx'; [|reflexivity].
      apply has_id_true in Hx'. exfalso. apply Hnot. rewrite <- Hx'.
      apply in_map. exact Hx.
    + destruct Hin as [Hin|Hin].
      * subst d. unfold has_id in Hr. rewrite String.eqb_refl in Hr. discriminate.
      * apply IH; assumption.
Qed.

(** With unique identifiers, a row is the only one its credentials
    select... *)
Lemma unique_credentials_found rows d t :
  unique_ids rows -> In (mkDevice d t) rows ->
  filter (has_credentials d t) rows = [mkDevice d t].
Proof.
  unfold unique_ids. induction rows as [|r rows IH]; cbn [map filter]; intros Hu Hin.
  - destruct Hin.
  - inversion Hu as [|x l Hnot Hu']; subst.
    destruct Hin as [->|Hin].
    + rewrite (proj2 (has_credentials_true d t _) eq_refl). f_equal.
      apply filter_none. intros x Hx.
      destruct (has_credentials d t x) eqn:Hx'; [|reflexivity].
      apply has_credentials_true in Hx'. subst x.
      exfalso. apply Hnot. cbn [device_id].
      change d with (device_id (mkDevice d t)). apply in_map. exact Hx.
    + destruct (has_credentials d t r) eqn:Hr.
      * apply has_credentials_true in Hr. subst r. exfalso. apply Hnot.
        cbn [device_id]. change d with (device_id (mkDevice d t)).
        apply in_map. exact Hin.
      * apply IH; assumption.
Qed.

(** ...and no other token selects anything for its identifier. *)
Lemma unique_credentials_only rows d t t' :
  unique_ids rows -> In (mkDevice d t) rows -> t' <> t ->
  filter (has_credentials d t') rows = [].
Proof.
  unfold unique_ids. induction rows as [|r rows IH]; cbn [map filter]; intros Hu Hin Ht.
  - reflexivity.
  - inversion Hu as [|x l Hnot Hu']; subst.
    destruct (has_credentials d t' r) eqn:Hr.
    + apply has_credentials_true in Hr. subst r. cbn [device_id] in Hnot.
      destruct Hin as [[= E]|Hin]; [congruence|].
      exfalso. apply Hnot. change d with (device_id (mkDevice d t)).
      apply in_map. exact Hin.
    + destruct Hin as [->|Hin].
      * apply filter_none. intros x Hx.
        destruct (has_credentials d t' x) eqn:Hx'; [|reflexivity].
        apply has_credentials_true in Hx'. subst x.
        exfalso. apply Hnot. cbn [device_id].
        change d with (device_id (mkDevice d t')). apply in_map. exact Hx.
      * apply IH; assumption.
Qed.

(** ** The routes and the service *)

Lemma post_upload_data_eq req w :
  post_upload_data req w =
  match authenticateDevice req w with
  | (Next, w1) => upload_data req w1
  | (Send s b, w1) => (Send s b, w1)
  end.
Proof.
  unfold Gateway.post_upload_data, chain, bind.
  destruct (authenticateDevice req w) as [[s b|] w1]; reflexivity.
Qed.

Lemma authenticateDevice_table req w :
  devicesTable (snd (authenticateDevice req w)) = devicesTable w.
Proof.
  destruct (authenticateDevice_paths req w)
    as [[_ ->] | (d & t & _ & _ & _ & _ & [(r & _ & _ & ->) | [_ ->]])]; reflexivity.
Qed.

Lemma upload_data_table req w :
  devicesTable (snd (upload_data req w)) = devicesTable w.
Proof.
  destruct (upload_data_paths req w) as [[_ ->] | (v & _ & _ & ->)]; reflexivity.
Qed.

Lemma post_upload_data_table req w :
  devicesTable (snd (post_upload_data req w)) = devicesTable w.
Proof.
  rewrite post_upload_data_eq.
  pose proof (authenticateDevice_table req w) as Ha.
  destruct (authenticateDevice req w) as [[s b|] w1]; cbn [snd] in Ha |- *.
  - exact Ha.
  - rewrite upload_data_table. exact Ha.
Qed.

Lemma list_devices_table req w :
  devicesTable (snd (list_devices req w)) = devicesTable w.
Proof.
  destruct (list_devices_paths req w) as [(e & _ & ->) | [_ ->]]; reflexivity.
Qed.

(** Rows enter the table with a 201 answer of registration and in no other
    way. *)
Lemma register_device_table req w :
  devicesTable (snd (register_device req w))
  = (devicesTable w ++ issued (POST_register_device, fst (register_device req w)))%list.
Proof.
  destruct (register_device_paths req w)
    as [[_ ->] | (d & _ & _ & [(e & _ & _ & ->) | [(r & _ & _ & ->) |
         [_ [(e & _ & ->) | [_ ->]]]]])];
    cbn [fst snd logged awaited devicesTable]; try (symmetry; apply app_nil_r).
  reflexivity.
Qed.

Lemma app_table route req w :
  devicesTable (snd (app route req w))
  = (devicesTable w ++ issued (route, fst (app route req w)))%list.
Proof.
  destruct route; cbn [Gateway.app].
  - apply register_device_table.
  - rewrite post_upload_data_table. cbn [issued]. symmetry. apply app_nil_r.
  - rewrite list_devices_table. cbn [issued]. symmetry. apply app_nil_r.
  - cbn. symmetry. apply app_nil_r.
Qed.

Lemma serve_table reqs : forall w,
  devicesTable (snd (serve reqs w))
  = (devicesTable w
       ++ flat_map issued (exchanges reqs (fst (serve reqs w))))%list.
Proof.
  unfold exchanges.
  induction reqs as [|[route req] reqs IH]; intros w; cbn [Gateway.serve].
  - cbn. symmetry. apply app_nil_r.
  - unfold bind. pose proof (app_table route req w) as Hstep.
    destruct (app route req w) as [o w1]. cbn [fst snd] in Hstep.
    specialize (IH w1). destruct (serve reqs w1) as [os w2].
    cbn [fst snd ret map combine flat_map] in IH |- *.
    rewrite IH, Hstep, <- app_assoc. reflexivity.
Qed.

(** Every successful registration hands out one pair of credentials, and no
    other answer hands out any. *)
Lemma app_issued route req w :
  List.length (issued (route, fst (app route req w)))
  = if is_registration (route, fst (app route req w)) then 1 else 0.
Proof.
  destruct route; cbn [Gateway.app]; try reflexivity.
  destruct (register_device_paths req w)
    as [[_ ->] | (d & _ & _ & [(e & _ & _ & ->) | [(r & _ & _ & ->) |
         [_ [(e & _ & ->) | [_ ->]]]]])]; reflexivity.
Qed.

Lemma serve_issued reqs : forall w,
  List.length (flat_map issued (exchanges reqs (fst (serve reqs w))))
  = List.length (filter is_registration (exchanges reqs (fst (serve reqs w)))).
Proof.
  unfold exchanges.
  induction reqs as [|[route req] reqs IH]; intros w; cbn [Gateway.serve].
  - reflexivity.
  - unfold bind. pose proof (app_issued route req w) as Hstep.
    destruct (app route req w) as [o w1]. cbn [fst] in Hstep.
    specialize (IH w1). destruct (serve reqs w1) as [os w2].
    cbn [fst snd ret map combine flat_map filter] in IH |- *.
    rewrite length_app, Hstep, IH.
    destruct (is_registration (route, o)); reflexivity.
Qed.

Lemma serve_keeps reqs w r :
  In r (devicesTable w) -> In r (devicesTable (snd (serve reqs w))).
Proof. intros H. rewrite serve_table. apply in_or_app. left. exact H. Qed.

(** Sequential registrations keep the identifiers of the table distinct,
    as long as the environment does not forge the row-count error. *)
Lemma register_device_unique_ids req w :
  genuine fault_at -> unique_ids (devicesTable w) ->
  unique_ids (devicesTable (snd (register_device req w))).
Proof.
  intros Hg Hu.
  destruct (register_device_paths req w)
    as [[_ ->] | (d & _ & _ & [(e & _ & _ & ->) | [(r & _ & _ & ->) |
         [Hnone [(e & _ & ->) | [_ ->]]]]])];
    cbn [fst snd logged awaited devicesTable]; try exact Hu.
  destruct Hnone as [(e & He & Hcode) | [_ Hnone]];
    [exfalso; exact (Hg _ _ He Hcode)|].
  unfold unique_ids. rewrite map_app. cbn [map device_id].
  apply NoDup_app; [exact Hu | constructor; [intros [] | constructor] |].
  intros a Ha [<-|[]].
  destruct (unique_id_found _ _ Hu Ha) as [r Hr]. exact (Hnone r Hr).
Qed.

Lemma app_unique_ids route req w :
  genuine fault_at -> unique_ids (devicesTable w) ->
  unique_ids (devicesTable (snd (app route req w))).
Proof.
  intros Hg Hu. destruct route; cbn [Gateway.app].
  - apply register_device_unique_ids; assumption.
  - rewrite post_upload_data_table. exact Hu.
  - rewrite list_devices_table. exact Hu.
  - exact Hu.
Qed.

Lemma serve_unique_ids reqs : forall w,
  genuine fault_at -> unique_ids (devicesTable w) ->
  unique_ids (devicesTable (snd (serve reqs w))).
Proof.
  induction reqs as [|[route req] reqs IH]; intros w Hg Hu; cbn [Gateway.serve].
  - exact Hu.
  - unfold bind. pose proof (app_unique_ids route req w Hg Hu) as Hstep.
    destruct (app route req w) as [o w1]. cbn [snd] in Hstep.
    specialize (IH w1 Hg Hstep). destruct (serve reqs w1) as [os w2].
    exact IH.
Qed.

(** ** What the datastore answers *)

Lemma existence_check_error d w :
  Pg.error (fst (await (existence_check d) w)) =
  match fault_at (calls w) with
  | Some e => Some e
  | None =>
      match filter (has_id d) (devicesTable w) with
      | [r] => None
      | _ => Some PGRST116
      end
  end.
Proof.
  rewrite await_existence_check. cbn [fst].
  destruct (fault_at (calls w)); [reflexivity|].
  destruct (filter (has_id d) (devicesTable w)) as [|r [|r' l]]; reflexivity.
Qed.

Lemma insert_error rows w :
  Pg.error (fst (await (Pg.Insert "devicesTable" rows) w)) = fault_at (calls w).
Proof.
  unfold Gateway.await. destruct (fault_at (calls w)); reflexivity.
Qed.

(** Whether the existence check ended in the row-count error, read off the
    environment and the table. *)
Lemma existence_check_PGRST116 d w :
  ((exists e, fault_at (calls w) = Some e /\ Pg.code e = "PGRST116") \/
   (fault_at (calls w) = None /\ forall r, filter (has_id d) (devicesTable w) <> [r]))
  <-> exists e, Pg.error (fst (await (existence_check d) w)) = Some e /\
                Pg.code e = "PGRST116".
Proof.
  rewrite existence_check_error. split.
  - intros [(e & -> & He) | [-> Hnone]]; [exists e; auto|].
    destruct (filter (has_id d) (devicesTable w)) as [|r [|r' l]];
      try (exists PGRST116; split; reflexivity).
    exfalso. exact (Hnone r eq_refl).
  - intros (e & He & Hcode). destruct (fault_at (calls w)) as [e'|].
    + left. exists e'. split; [reflexivity | congruence].
    + right. split; [reflexivity|]. intros r Hr. rewrite Hr in He. discriminate He.
Qed.

(** * The claims *)

(** C3.  Every token issued by a successful registration (HTTP 201) is the
    hex encoding of 16 random bytes, a string of exactly 32 lowercase
    hexadecimal characters: [generateToken] always returns the encoding of
    the next 16 bytes of the random source, and the token of a 201 answer is
    such a string, the one stored with the identifier. *)
Theorem issued_token_is_32_lowercase_hex req w sent w' :
  register_device req w = (Send 201 sent, w') ->
  exists (buf : list byte) (T : string),
    member "token" sent = Some (JString T) /\
    buf = map random_byte (seq (drawn w) 16) /\
    List.length buf = 16 /\
    T = toString_hex buf /\
    fst (generateToken random_byte
           (awaited (existence_check (String_ (Body.deviceId (body req))))
                    (devicesTable w) w)) = T /\
    String.length T = 32 /\
    string_forall is_lower_hex T = true /\
    devicesTable w'
    = (devicesTable w ++ [mkDevice (String_ (Body.deviceId (body req))) T])%list.
Proof.
  intros Hrun.
  destruct (register_device_paths req w)
    as [[_ E] | (d & Hd & _ & [(e & _ & _ & E) | [(r & _ & _ & E) |
         [_ [(e & _ & E) | [_ E]]]]])];
    rewrite E in Hrun; try discriminate Hrun.
  injection Hrun as <- <-. rewrite Hd. cbn [String_].
  exists (map random_byte (seq (drawn w) 16)), (toString_hex (map random_byte (seq (drawn w) 16))).
  split; [reflexivity|]. split; [reflexivity|].
  split; [rewrite length_map, length_seq; reflexivity|].
  split; [reflexivity|]. split; [reflexivity|].
  split; [rewrite length_toString_hex, length_map, length_seq; reflexivity|].
  split; [apply lower_hex_toString_hex | reflexivity].
Qed.

(** C9.  Registration is atomic on failure: whenever [POST /register-device]
    answers with anything but 201 (400 for a missing identifier, 400 for a
    conflict, 500 for a failed existence check, 500 for a failed insert), the
    table holds the same rows as before. *)
Theorem register_device_failure_adds_no_record req w :
  status_of (fst (register_device req w)) <> Some 201%Z ->
  devicesTable (snd (register_device req w)) = devicesTable w /\
  (status_of (fst (register_device req w)) = Some 400%Z \/
   status_of (fst (register_device req w)) = Some 500%Z).
Proof.
  intros Hs.
  destruct (register_device_paths req w)
    as [[_ E] | (d & _ & _ & [(e & _ & _ & E) | [(r & _ & _ & E) |
         [_ [(e & _ & E) | [_ E]]]]])];
    rewrite E in Hs |- *; cbn [fst snd status_of logged awaited devicesTable] in Hs |- *;
    auto.
  congruence.
Qed.

(** C4.  When the existence check of a registration request finds a record
    for the identifier, [POST /register-device] answers 400 "already
    registered"; it draws no random bytes and awaits nothing but the check,
    so that no token is generated and no record inserted.  In particular,
    when the service handles its requests one after the other, starting from
    an empty table, a registration that repeats the identifier of an earlier
    successful one, and whose existence check is answered, gets 400. *)
Theorem register_device_conflict req w d :
  Body.deviceId (body req) = Some d -> d <> "" ->
  (forall r, Pg.data (fst (await (existence_check d) w)) = Pg.Row r ->
     register_device req w
     = (Send 400 (error_body "Device ID is already registered."),
        mkWorld (devicesTable w) (S (calls w)) (drawn w) (console w)
                (journal w ++ [existence_check d])%list)) /\
  (forall w0 before first sent between again,
     genuine fault_at -> devicesTable w0 = [] ->
     Body.deviceId (body first) = Some d ->
     register_device first (snd (serve before w0)) = (Send 201 sent, again) ->
     w = snd (serve between again) ->
     fault_at (calls w) = None ->
     fst (register_device req w)
     = Send 400 (error_body "Device ID is already registered.") /\
     devicesTable (snd (register_device req w)) = devicesTable w).
Proof.
  intros Hd Hne. split.
  - intros r Hfound. rewrite await_existence_check in Hfound. cbn [fst] in Hfound.
    destruct (register_device_paths req w)
      as [[Hfalse _] | (d' & Hd' & _ & [(e & He & _ & E) | [(r' & _ & _ & E) |
           [Hnone _]]])].
    + rewrite Hd in Hfalse. apply ToBoolean_absent in Hfalse as [|]; congruence.
    + rewrite He in Hfound. discriminate Hfound.
    + rewrite E. replace d' with d by congruence. reflexivity.
    + replace d' with d in Hnone by congruence.
      destruct Hnone as [(e & He & _) | [Hf Hnone]].
      * rewrite He in Hfound. discriminate Hfound.
      * rewrite Hf in Hfound.
        destruct (filter (has_id d) (devicesTable w)) as [|r0 [|r1 l]] eqn:Hrows;
          try discriminate Hfound.
        exfalso. exact (Hnone r0 eq_refl).
  - intros w0 before first sent between again Hg Hempty Hfirst Hrun -> Hf.
    assert (Hu0 : unique_ids (devicesTable (snd (serve before w0)))).
    { apply serve_unique_ids; [exact Hg|]. rewrite Hempty. constructor. }
    pose proof (register_device_unique_ids first _ Hg Hu0) as Hu1.
    pose proof (register_device_table first (snd (serve before w0))) as Ht1.
    rewrite Hrun in Hu1, Ht1. cbn [fst snd] in Hu1, Ht1.
    destruct (register_device_paths first (snd (serve before w0)))
      as [[_ E] | (d' & Hd' & _ & [(e & _ & _ & E) | [(r & _ & _ & E) |
           [_ [(e & _ & E) | [_ E]]]]])];
      rewrite E in Hrun; try discriminate Hrun.
    injection Hrun as <- Hagain. replace d' with d in * by congruence.
    assert (Hin : In d (map device_id (devicesTable again))).
    { rewrite <- Hagain. cbn [awaited devicesTable]. rewrite map_app.
      apply in_or_app. right. left. reflexivity. }
    pose proof (serve_unique_ids between again Hg Hu1) as Hu.
    assert (Hin' : In d (map device_id (devicesTable (snd (serve between again))))).
    { apply in_map_iff in Hin as (r & Hr & Hin). apply in_map_iff. exists r.
      split; [exact Hr | apply serve_keeps; exact Hin]. }
    destruct (unique_id_found _ _ Hu Hin') as [r Hr].
    destruct (register_device_paths req (snd (serve between again)))
      as [[Hfalse _] | (d2 & Hd2 & _ & [(e & He & _ & E2) | [(r' & _ & _ & E2) |
           [Hnone _]]])].
    + rewrite Hd in Hfalse. apply ToBoolean_absent in Hfalse as [|]; congruence.
    + congruence.
    + rewrite E2. split; reflexivity.
    + replace d2 with d in Hnone by congruence.
      destruct Hnone as [(e & He & _) | [_ Hnone]]; [congruence|].
      exfalso. exact (Hnone r Hr).
Qed.

(** C5.  [POST /register-device] answers 500 exactly when the existence
    check fails with an error whose code is not [PGRST116] (the code the
    handler takes for "not found"), or the insert of the new record fails;
    after a [PGRST116] answer to the existence check the handler goes on to
    the insert, and answers 201 or 500 as the insert succeeds or fails. *)
Theorem register_device_500_iff req w :
  (status_of (fst (register_device req w)) = Some 500%Z <->
   exists d, Body.deviceId (body req) = Some d /\ d <> "" /\
     let checked := await (existence_check d) w in
     let tokened := generateToken random_byte (snd checked) in
     let inserted :=
       await (Pg.Insert "devicesTable" [mkDevice d (fst tokened)]) (snd tokened) in
     (exists e, Pg.error (fst checked) = Some e /\ Pg.code e <> "PGRST116") \/
     ((exists e, Pg.error (fst checked) = Some e /\ Pg.code e = "PGRST116") /\
      exists e, Pg.error (fst inserted) = Some e))
  /\
  (forall d, Body.deviceId (body req) = Some d -> d <> "" ->
     (exists e, Pg.error (fst (await (existence_check d) w)) = Some e /\
                Pg.code e = "PGRST116") ->
     let T := toString_hex (map random_byte (seq (drawn w) 16)) in
     journal (snd (register_device req w))
     = (journal w ++ [existence_check d; Pg.Insert "devicesTable" [mkDevice d T]])%list /\
     (status_of (fst (register_device req w)) = Some 201%Z \/
      status_of (fst (register_device req w)) = Some 500%Z)).
Proof.
  assert (Hcalls : forall d,
    calls (snd (generateToken random_byte (snd (await (existence_check d) w))))
    = S (calls w)).
  { intros d. rewrite await_existence_check. reflexivity. }
  destruct (register_device_paths req w)
    as [[Hfalse E] | (d & Hd & Hne & [(e & He & Hcode & E) | [(r & Hf & Hr & E) |
         [Hnone [(e & He & E) | [Hf E]]]]])];
    rewrite E; cbn [fst snd status_of logged awaited journal]; split.
  - split; [discriminate|]. intros (d & Hd & Hne & _).
    rewrite Hd in Hfalse. apply ToBoolean_absent in Hfalse as [|]; congruence.
  - intros d Hd Hne _. rewrite Hd in Hfalse.
    apply ToBoolean_absent in Hfalse as [|]; congruence.
  - split; [intros _|reflexivity]. exists d. do 2 (split; [assumption|]).
    cbv zeta. left. exists e. rewrite existence_check_error, He. auto.
  - intros d' Hd' _ (e' & He' & Hcode'). replace d' with d in * by congruence.
    rewrite existence_check_error, He in He'. congruence.
  - split; [discriminate|]. intros (d' & Hd' & _ & H). cbv zeta in H.
    replace d' with d in * by congruence.
    rewrite existence_check_error, Hf, Hr in H.
    destruct H as [(e' & He' & _) | [(e' & He' & _) _]]; discriminate.
  - intros d' Hd' _ (e' & He' & _). replace d' with d in * by congruence.
    rewrite existence_check_error, Hf, Hr in He'. discriminate.
  - split; [intros _|reflexivity]. exists d. do 2 (split; [assumption|]).
    cbv zeta. right. split; [apply existence_check_PGRST116; exact Hnone|].
    exists e. rewrite insert_error, Hcalls. exact He.
  - intros d' Hd' _ _. replace d' with d in * by congruence.
    split; [|right; reflexivity].
    rewrite <- app_assoc. reflexivity.
  - split; [discriminate|]. intros (d' & Hd' & _ & H). cbv zeta in H.
    replace d' with d in * by congruence.
    apply existence_check_PGRST116 in Hnone as (e0 & He0 & Hcode0).
    destruct H as [(e' & He' & Hcode') | [_ (e' & He')]].
    + congruence.
    + rewrite insert_error, Hcalls, Hf in He'. discriminate.
  - intros d' Hd' _ _. replace d' with d in * by congruence.
    split; [|left; reflexivity].
    rewrite <- app_assoc. reflexivity.
Qed.

(** C6.  For every [POST /upload-data] request that passes authentication:
    when the [data] field of the body is absent or falsy the answer is 400,
    and when it is present and truthy the answer is 200 with the success
    message. *)
Theorem upload_data_after_authentication req w w1 :
  authenticateDevice req w = (Next, w1) ->
  (ToBoolean (Body.data (body req)) = false ->
   post_upload_data req w
   = (Send 400 (error_body "Data is required for upload."), w1)) /\
  (ToBoolean (Body.data (body req)) = true ->
   fst (post_upload_data req w)
   = Send 200 (message_body "Data uploaded successfully.")).
Proof.
  intros Hauth. rewrite post_upload_data_eq, Hauth.
  destruct (upload_data_paths req w1) as [[Hfalse ->] | (v & Hv & Htrue & ->)]; split;
    try reflexivity; intros H.
  - congruence.
  - rewrite Hv in H. change (ToBoolean (Some v)) with (ToBoolean v) in H. congruence.
Qed.

(** C7.  [POST /upload-data] writes nothing to the datastore: for every
    request the table is the same before and after, and the route awaits no
    insert; when the answer is 200 the payload has been written to the
    console, and that line is the only trace of it. *)
Theorem upload_data_persists_nothing req w :
  let w' := snd (post_upload_data req w) in
  devicesTable w' = devicesTable w /\
  (forall q, In q (journal w') -> In q (journal w) \/ Pg.is_insert q = false) /\
  (status_of (fst (post_upload_data req w)) = Some 200%Z ->
   exists v, Body.data (body req) = Some v /\
     console w'
     = (console w
          ++ [[JString ("Data received from "
                        ++ String_ (Headers.device (headers req)) ++ ":"); v]])%list) /\
  (status_of (fst (post_upload_data req w)) <> Some 200%Z -> console w' = console w).
Proof.
  cbv zeta. split; [apply post_upload_data_table|].
  rewrite post_upload_data_eq.
  destruct (authenticateDevice_paths req w)
    as [[_ ->] | (d & t & _ & _ & _ & _ & [(r & _ & _ & ->) | [_ ->]])];
    cbn [fst snd status_of forbidden].
  - repeat split; auto; discriminate.
  - destruct (upload_data_paths req (awaited (credential_check d t) (devicesTable w) w))
      as [[_ ->] | (v & Hv & _ & ->)];
      cbn [fst snd status_of logged awaited journal console]; repeat split.
    + intros q Hq. apply in_app_or in Hq as [Hq | [<- | []]]; auto.
    + discriminate.
    + intros q Hq. apply in_app_or in Hq as [Hq | [<- | []]]; auto.
    + intros _. exists v. split; [exact Hv | reflexivity].
    + intros H. exfalso. apply H. reflexivity.
  - cbn [awaited journal console]. repeat split.
    + intros q Hq. apply in_app_or in Hq as [Hq | [<- | []]]; auto.
    + discriminate.
Qed.

(** C8.  [GET /list-devices] asks for no credentials: whatever the request,
    it answers 200 with every row of the table, tokens included, in a
    [devices] array (the empty array for an empty table), and 500 when the
    query fails.  After the service has handled any sequence of requests from
    an empty table, the array holds exactly the identifier and token of every
    201 answer of registration, in order. *)
Theorem list_devices_returns_every_record req w :
  (fault_at (calls w) = None ->
   fst (list_devices req w)
   = Send 200 (JObject [("devices", JArray (map json_of_device (devicesTable w)))])) /\
  (forall e, fault_at (calls w) = Some e ->
   fst (list_devices req w) = Send 500 (error_body "Error fetching device list.")) /\
  (forall w0 reqs,
     devicesTable w0 = [] -> w = snd (serve reqs w0) -> fault_at (calls w) = None ->
     let answered := exchanges reqs (fst (serve reqs w0)) in
     fst (list_devices req w)
     = Send 200 (JObject [("devices",
                           JArray (map json_of_device (flat_map issued answered)))]) /\
     List.length (map json_of_device (flat_map issued answered))
     = List.length (filter is_registration answered)).
Proof.
  destruct (list_devices_paths req w) as [(e & He & E) | [Hf E]]; rewrite E; cbn [fst].
  - split; [congruence|]. split; [reflexivity|]. intros; congruence.
  - split; [reflexivity|]. split; [congruence|].
    intros w0 reqs Hempty -> _. cbv zeta. rewrite serve_table, Hempty. cbn [app].
    split; [reflexivity|].
    rewrite length_map. apply serve_issued.
Qed.

(** C10.  The middleware lets a request through only when exactly one row
    of the table matches both headers.  When more than one row matches the
    pair, a row with the right token is in the table, yet the single-row
    lookup answers with an error and no data, and the middleware answers
    403. *)
Theorem authenticateDevice_needs_exactly_one_row req w d t :
  Headers.device (headers req) = Some d ->
  Headers.token (headers req) = Some t ->
  d <> "" -> t <> "" ->
  (fst (authenticateDevice req w) = Next ->
   List.length (filter (has_credentials d t) (devicesTable w)) = 1) /\
  (1 < List.length (filter (has_credentials d t) (devicesTable w)) ->
   In (mkDevice d t) (devicesTable w) /\
   (exists e, fst (await (credential_check d t) w) = Pg.mkResponse Pg.Null (Some e)) /\
   (fault_at (calls w) = None ->
    fst (await (credential_check d t) w) = Pg.mkResponse Pg.Null (Some PGRST116)) /\
   fst (authenticateDevice req w) = forbidden).
Proof.
  intros Hd Ht Hdne Htne.
  assert (Hin : 1 < List.length (filter (has_credentials d t) (devicesTable w)) ->
                In (mkDevice d t) (devicesTable w)).
  { intros Hmany.
    destruct (filter (has_credentials d t) (devicesTable w)) as [|r l] eqn:Hrows;
      [cbn in Hmany; lia|].
    assert (Hr : In r (filter (has_credentials d t) (devicesTable w)))
      by (rewrite Hrows; left; reflexivity).
    apply filter_In in Hr as [Hr Hcred]. apply has_credentials_true in Hcred.
    subst r. exact Hr. }
  destruct (authenticateDevice_paths req w)
    as [[Hfalse _] | (d' & t' & Hd' & Ht' & _ & _ & Hpaths)].
  { exfalso. rewrite Hd, Ht in Hfalse.
    destruct Hfalse as [H|H]; apply ToBoolean_absent in H as [|]; congruence. }
  replace d' with d in * by congruence. replace t' with t in * by congruence.
  rewrite await_credential_check. cbn [fst].
  destruct Hpaths as [(r & Hf & Hr & E) | [Hnone E]]; rewrite E; cbn [fst].
  - rewrite Hr. cbn [List.length]. split; [reflexivity | lia].
  - split; [discriminate|]. intros Hmany. split; [exact (Hin Hmany)|].
    destruct (fault_at (calls w)) as [e|].
    + split; [exists e; reflexivity|]. split; [discriminate | reflexivity].
    + destruct (filter (has_credentials d t) (devicesTable w)) as [|r1 [|r2 l]];
        [cbn in Hmany; lia | cbn in Hmany; lia |].
      split; [exists PGRST116; reflexivity|]. split; reflexivity.
Qed.

(** C2, amended.  The middleware answers 401 exactly when the [device]
    header or the [token] header is missing or empty, and then awaits
    nothing.  When both are present and not empty it awaits one single-row
    lookup that filters on both fields by equality; it calls [next()] exactly
    when the lookup is answered and one row matches, and answers 403
    otherwise, that is when the query fails or the rows matching are not
    exactly one. *)
Theorem authenticateDevice_outcomes req w :
  (status_of (fst (authenticateDevice req w)) = Some 401%Z <->
   Headers.device (headers req) = None \/ Headers.device (headers req) = Some "" \/
   Headers.token (headers req) = None \/ Headers.token (headers req) = Some "") /\
  (status_of (fst (authenticateDevice req w)) = Some 401%Z ->
   snd (authenticateDevice req w) = w) /\
  (forall d t,
     Headers.device (headers req) = Some d -> Headers.token (headers req) = Some t ->
     d <> "" -> t <> "" ->
     snd (authenticateDevice req w)
     = awaited (credential_check d t) (devicesTable w) w /\
     (forall r, has_credentials d t r = true <-> device_id r = d /\ token r = t) /\
     (fst (authenticateDevice req w) = Next <->
      fault_at (calls w) = None /\
      exists r, filter (has_credentials d t) (devicesTable w) = [r]) /\
     (fst (authenticateDevice req w) = forbidden <->
      (exists e, fault_at (calls w) = Some e) \/
      forall r, filter (has_credentials d t) (devicesTable w) <> [r])).
Proof.
  destruct (authenticateDevice_paths req w)
    as [[Hfalse E] | (d & t & Hd & Ht & Hdne & Htne & Hpaths)].
  - rewrite E. cbn [fst snd status_of]. split; [|split; [reflexivity|]].
    + split; [intros _|reflexivity].
      destruct Hfalse as [H|H]; apply ToBoolean_absent in H as [|]; auto.
    + intros d t Hd Ht Hdne Htne. exfalso. rewrite Hd, Ht in Hfalse.
      destruct Hfalse as [H|H]; apply ToBoolean_absent in H as [|]; congruence.
  - assert (Hnot401 : status_of (fst (authenticateDevice req w)) <> Some 401%Z)
      by (destruct Hpaths as [(r & _ & _ & ->) | [_ ->]]; discriminate).
    split; [|split; [intros H; contradiction|]].
    + split; [intros H; contradiction|].
      rewrite Hd, Ht. intros [H | [H | [H | H]]]; congruence.
    + intros d' t' Hd' Ht' _ _.
      replace d' with d in * by congruence. replace t' with t in * by congruence.
      split; [destruct Hpaths as [(r & _ & _ & ->) | [_ ->]]; reflexivity|].
      split.
      { intros r. rewrite has_credentials_true. destruct r as [d0 t0].
        cbn [device_id token]. split; [intros [= -> ->]; auto | intros [-> ->]; reflexivity]. }
      destruct Hpaths as [(r & Hf & Hr & E) | [Hnone E]]; rewrite E; cbn [fst]; split.
      * split; [intros _; split; [exact Hf | exists r; exact Hr] | reflexivity].
      * split; [discriminate|].
        intros [(e & He) | Hno]; [congruence | exfalso; exact (Hno r Hr)].
      * split; [discriminate|].
        intros (Hf & r & Hr). destruct Hnone as [(e & He) | Hno];
          [congruence | exfalso; exact (Hno r Hr)].
      * split; [intros _; exact Hnone | reflexivity].
Qed.

(** C1, amended.  Let the service handle its requests one after the other,
    starting from an empty table, in an environment that does not forge the
    row-count error.  When a registration of identifier D is answered 201
    with token T, then at any later time a request with headers device=D and
    token=T passes the middleware, provided its lookup is answered; and with
    any token T' that is not T and not empty, the middleware answers 403. *)
Theorem issued_token_authenticates w0 before first sent again between w d T :
  genuine fault_at -> devicesTable w0 = [] ->
  Body.deviceId (body first) = Some d ->
  register_device first (snd (serve before w0)) = (Send 201 sent, again) ->
  member "token" sent = Some (JString T) ->
  w = snd (serve between again) ->
  (forall req,
     Headers.device (headers req) = Some d -> Headers.token (headers req) = Some T ->
     fault_at (calls w) = None ->
     fst (authenticateDevice req w) = Next) /\
  (forall req T',
     Headers.device (headers req) = Some d -> Headers.token (headers req) = Some T' ->
     T' <> T -> T' <> "" ->
     fst (authenticateDevice req w) = forbidden).
Proof.
  intros Hg Hempty Hfirst Hrun Htoken ->.
  assert (Hu0 : unique_ids (devicesTable (snd (serve before w0)))).
  { apply serve_unique_ids; [exact Hg|]. rewrite Hempty. constructor. }
  pose proof (register_device_unique_ids first _ Hg Hu0) as Hu1.
  rewrite Hrun in Hu1. cbn [snd] in Hu1.
  destruct (register_device_paths first (snd (serve before w0)))
    as [[_ E] | (d' & Hd' & Hdne & [(e & _ & _ & E) | [(r & _ & _ & E) |
         [_ [(e & _ & E) | [_ E]]]]])];
    rewrite E in Hrun; try discriminate Hrun.
  remember (toString_hex (map random_byte (seq (drawn (snd (serve before w0))) 16)))
    as T0 eqn:HT.
  assert (Hlen : String.length T0 = 32)
    by (rewrite HT, length_toString_hex, length_map, length_seq; reflexivity).
  clear HT E.
  injection Hrun as <- Hagain. replace d' with d in * by congruence.
  cbn in Htoken. injection Htoken as ->.
  assert (Hin : In (mkDevice d T) (devicesTable (snd (serve between again)))).
  { apply serve_keeps. rewrite <- Hagain. cbn [awaited devicesTable].
    apply in_or_app. right. left. reflexivity. }
  pose proof (serve_unique_ids between again Hg Hu1) as Hu.
  split.
  - intros req Hd Ht Hf.
    destruct (authenticateDevice_paths req (snd (serve between again)))
      as [[Hfalse _] | (d2 & t2 & Hd2 & Ht2 & _ & _ &
           [(r & _ & _ & ->) | [Hnone _]])].
    + exfalso. rewrite Hd, Ht in Hfalse.
      destruct Hfalse as [H|H]; apply ToBoolean_absent in H as [H|H];
        try congruence.
      injection H as ->. discriminate Hlen.
    + reflexivity.
    + exfalso. replace d2 with d in * by congruence.
      replace t2 with T in * by congruence.
      destruct Hnone as [(e & He) | Hno]; [congruence|].
      exact (Hno _ (unique_credentials_found _ _ _ Hu Hin)).
  - intros req T' Hd Ht Hdiff Hne.
    destruct (authenticateDevice_paths req (snd (serve between again)))
      as [[Hfalse _] | (d2 & t2 & Hd2 & Ht2 & _ & _ &
           [(r & _ & Hr & _) | [_ ->]])].
    + exfalso. rewrite Hd, Ht in Hfalse.
      destruct Hfalse as [H|H]; apply ToBoolean_absent in H as [|]; congruence.
    + exfalso. replace d2 with d in * by congruence.
      replace t2 with T' in * by congruence.
      rewrite (unique_credentials_only _ _ _ _ Hu Hin Hdiff) in Hr. discriminate Hr.
    + reflexivity.
Qed.

End Properties.

(** * The scenario, run *)

Lemma reliable_genuine : genuine reliable.
Proof. intros n e H. discriminate H. Qed.

Lemma fails_at_genuine k : genuine (fails_at k).
Proof.
  intros n e H. unfold fails_at in H.
  destruct (Nat.eqb n k); [injection H as <-|]; discriminate.
Qed.

(** C3 at ["sensor-1"]: the token is 000102...0f. *)
Lemma sensor_1_token_is_32_lowercase_hex :
  register_device reliable counting_bytes sensor_1 boot
  = (Send 201 sensor_1_answer, sensor_1_registered) /\
  exists (buf : list byte) (T : string),
    member "token" sensor_1_answer = Some (JString T) /\
    buf = map counting_bytes (seq (drawn boot) 16) /\
    List.length buf = 16 /\
    T = toString_hex buf /\
    fst (generateToken counting_bytes
           (awaited (existence_check (String_ (Body.deviceId (body sensor_1))))
                    (devicesTable boot) boot)) = T /\
    String.length T = 32 /\
    string_forall is_lower_hex T = true /\
    devicesTable sensor_1_registered
    = (devicesTable boot ++ [mkDevice (String_ (Body.deviceId (body sensor_1))) T])%list.
Proof.
  split; [vm_compute; reflexivity|].
  apply (issued_token_is_32_lowercase_hex reliable counting_bytes sensor_1 boot
           sensor_1_answer sensor_1_registered).
  vm_compute. reflexivity.
Defined.

(** C9 when the insert fails: 500, and the table is still empty. *)
Lemma failed_insert_adds_no_record :
  status_of (fst (register_device (fails_at 1) counting_bytes sensor_1 boot))
  = Some 500%Z /\
  devicesTable (snd (register_device (fails_at 1) counting_bytes sensor_1 boot)) = [].
Proof.
  split; [vm_compute; reflexivity|].
  apply (register_device_failure_adds_no_record (fails_at 1) counting_bytes sensor_1 boot).
  vm_compute. discriminate.
Defined.

(** C4 at a second registration of ["sensor-1"], after other requests. *)
Lemma sensor_1_registers_twice :
  register_device reliable counting_bytes sensor_1 sensor_1_registered
  = (Send 400 (JObject [("error", JString "Device ID is already registered.")]),
     mkWorld (devicesTable sensor_1_registered) (S (calls sensor_1_registered))
             (drawn sensor_1_registered) (console sensor_1_registered)
             (journal sensor_1_registered ++ [existence_check "sensor-1"])%list) /\
  fst (register_device reliable counting_bytes sensor_1
         (snd (serve reliable counting_bytes later sensor_1_registered)))
  = Send 400 (JObject [("error", JString "Device ID is already registered.")]).
Proof.
  split.
  - apply (proj1 (register_device_conflict reliable counting_bytes sensor_1
                    sensor_1_registered "sensor-1" eq_refl
                    ltac:(discriminate))
             (mkDevice "sensor-1" sensor_1_token)).
    vm_compute. reflexivity.
  - apply (proj2 (register_device_conflict reliable counting_bytes sensor_1
                    (snd (serve reliable counting_bytes later sensor_1_registered))
                    "sensor-1" eq_refl ltac:(discriminate))
             boot [] sensor_1 sensor_1_answer later sensor_1_registered
             reliable_genuine eq_refl eq_refl).
    + vm_compute. reflexivity.
    + reflexivity.
    + reflexivity.
Defined.

(** C5 when the insert fails: the existence check answers [PGRST116], the
    insert meets the outage, the answer is 500. *)
Lemma failed_insert_is_500 :
  status_of (fst (register_device (fails_at 1) counting_bytes sensor_1 boot))
  = Some 500%Z /\
  journal (snd (register_device (fails_at 1) counting_bytes sensor_1 boot))
  = [existence_check "sensor-1";
     Pg.Insert "devicesTable" [mkDevice "sensor-1" sensor_1_token]].
Proof.
  destruct (register_device_500_iff (fails_at 1) counting_bytes sensor_1 boot)
    as [H500 Hnext].
  split.
  - apply H500. exists "sensor-1". split; [reflexivity|]. split; [discriminate|].
    right. split.
    + exists PGRST116. split; vm_compute; reflexivity.
    + exists fetch_failed. vm_compute. reflexivity.
  - apply (Hnext "sensor-1" eq_refl).
    + discriminate.
    + exists PGRST116. split; vm_compute; reflexivity.
Defined.

(** C6 at an upload of [{temp: 21.5}] with the credentials of ["sensor-1"],
    and at one without [data]. *)
Lemma sensor_1_uploads :
  authenticateDevice reliable (upload "sensor-1" sensor_1_token (Some reading))
    sensor_1_registered
  = (Next, awaited (credential_check "sensor-1" sensor_1_token)
             (devicesTable sensor_1_registered) sensor_1_registered) /\
  fst (post_upload_data reliable (upload "sensor-1" sensor_1_token (Some reading))
         sensor_1_registered)
  = Send 200 (JObject [("message", JString "Data uploaded successfully.")]) /\
  fst (post_upload_data reliable (upload "sensor-1" sensor_1_token None)
         sensor_1_registered)
  = Send 400 (JObject [("error", JString "Data is required for upload.")]).
Proof.
  split; [vm_compute; reflexivity|]. split.
  - apply (upload_data_after_authentication reliable
             (upload "sensor-1" sensor_1_token (Some reading)) sensor_1_registered
             (awaited (credential_check "sensor-1" sensor_1_token)
                (devicesTable sensor_1_registered) sensor_1_registered)).
    + vm_compute. reflexivity.
    + vm_compute. reflexivity.
  - rewrite (proj1 (upload_data_after_authentication reliable
             (upload "sensor-1" sensor_1_token None) sensor_1_registered
             (awaited (credential_check "sensor-1" sensor_1_token)
                (devicesTable sensor_1_registered) sensor_1_registered)
             ltac:(vm_compute; reflexivity))
             ltac:(vm_compute; reflexivity)).
    reflexivity.
Defined.

(** C7 at the same upload: the table is as before, the console has one
    more line. *)
Lemma sensor_1_upload_is_only_logged :
  devicesTable (snd (post_upload_data reliable
                       (upload "sensor-1" sensor_1_token (Some reading))
                       sensor_1_registered))
  = [mkDevice "sensor-1" sensor_1_token] /\
  exists v, Some reading = Some v /\
    console (snd (post_upload_data reliable
                    (upload "sensor-1" sensor_1_token (Some reading))
                    sensor_1_registered))
    = (console sensor_1_registered
         ++ [[JString "Data received from sensor-1:"; v]])%list.
Proof.
  destruct (upload_data_persists_nothing reliable
              (upload "sensor-1" sensor_1_token (Some reading)) sensor_1_registered)
    as (Htable & _ & Hlogged & _).
  split.
  - rewrite Htable. vm_compute. reflexivity.
  - apply Hlogged. vm_compute. reflexivity.
Defined.

(** C8 after the registration of ["sensor-1"], and during an outage. *)
Lemma sensor_1_is_listed :
  fst (list_devices reliable (registration "") sensor_1_registered)
  = Send 200 (JObject [("devices",
                        JArray [JObject [("device_id", JString "sensor-1");
                                         ("token", JString sensor_1_token)]])]) /\
  fst (list_devices reliable (registration "") boot)
  = Send 200 (JObject [("devices", JArray [])]) /\
  fst (list_devices outage (registration "") sensor_1_registered)
  = Send 500 (JObject [("error", JString "Error fetching device list.")]).
Proof.
  split; [|split].
  - apply (proj1 (list_devices_returns_every_record reliable counting_bytes
                    (registration "") sensor_1_registered)).
    reflexivity.
  - apply (proj1 (list_devices_returns_every_record reliable counting_bytes
                    (registration "") boot)).
    reflexivity.
  - apply (proj1 (proj2 (list_devices_returns_every_record outage counting_bytes
                           (registration "") sensor_1_registered))
             fetch_failed).
    reflexivity.
Defined.

(** C10 at a table that holds the credentials of ["sensor-1"] twice. *)
Lemma duplicated_credentials_are_refused :
  1 < List.length (filter (has_credentials "sensor-1" sensor_1_token)
                          (devicesTable duplicated)) /\
  In (mkDevice "sensor-1" sensor_1_token) (devicesTable duplicated) /\
  fst (authenticateDevice reliable (credentials "sensor-1" sensor_1_token) duplicated)
  = forbidden.
Proof.
  assert (Hmany : 1 < List.length (filter (has_credentials "sensor-1" sensor_1_token)
                                          (devicesTable duplicated)))
    by (vm_compute; lia).
  split; [exact Hmany|].
  destruct (authenticateDevice_needs_exactly_one_row reliable
              (credentials "sensor-1" sensor_1_token) duplicated
              "sensor-1" sensor_1_token eq_refl eq_refl
              ltac:(discriminate) ltac:(discriminate)) as [_ H].
  destruct (H Hmany) as (Hin & _ & _ & Hforbidden).
  split; assumption.
Defined.

(** C2 at the credentials of ["sensor-1"], at a wrong token and at a
    request without headers. *)
Lemma sensor_1_authenticates_or_not :
  fst (authenticateDevice reliable (credentials "sensor-1" sensor_1_token)
         sensor_1_registered) = Next /\
  fst (authenticateDevice reliable (credentials "sensor-1" "wrong")
         sensor_1_registered) = forbidden /\
  status_of (fst (authenticateDevice reliable sensor_1 sensor_1_registered))
  = Some 401%Z.
Proof.
  split; [|split].
  - destruct (authenticateDevice_outcomes reliable
                (credentials "sensor-1" sensor_1_token) sensor_1_registered)
      as (_ & _ & H).
    apply (H "sensor-1" sensor_1_token eq_refl eq_refl
             ltac:(discriminate) ltac:(discriminate)).
    split; [reflexivity|].
    exists (mkDevice "sensor-1" sensor_1_token). vm_compute. reflexivity.
  - destruct (authenticateDevice_outcomes reliable
                (credentials "sensor-1" "wrong") sensor_1_registered)
      as (_ & _ & H).
    apply (H "sensor-1" "wrong" eq_refl eq_refl
             ltac:(discriminate) ltac:(discriminate)).
    right. intros r. vm_compute. discriminate.
  - apply (proj1 (authenticateDevice_outcomes reliable sensor_1 sensor_1_registered)).
    left. reflexivity.
Defined.

(** C2 as stated fails: both headers are present, [token] with the empty
    value, and the middleware answers 401. *)
Lemma empty_header_is_present_and_401 :
  Headers.device (headers (credentials "sensor-1" "")) = Some "sensor-1" /\
  Headers.token (headers (credentials "sensor-1" "")) = Some "" /\
  ~ (Headers.device (headers (credentials "sensor-1" "")) = None \/
     Headers.token (headers (credentials "sensor-1" "")) = None) /\
  authenticateDevice reliable (credentials "sensor-1" "") sensor_1_registered
  = (Send 401 (JObject [("error", JString "Device ID and token are required.")]),
     sensor_1_registered).
Proof.
  split; [reflexivity|]. split; [reflexivity|]. split.
  - intros [H|H]; discriminate H.
  - vm_compute. reflexivity.
Qed.

(** C1 at ["sensor-1"], after later requests. *)
Lemma sensor_1_token_authenticates :
  register_device reliable counting_bytes sensor_1 boot
  = (Send 201 sensor_1_answer, sensor_1_registered) /\
  fst (authenticateDevice reliable (credentials "sensor-1" sensor_1_token)
         (snd (serve reliable counting_bytes later sensor_1_registered))) = Next /\
  fst (authenticateDevice reliable (credentials "sensor-1" "wrong")
         (snd (serve reliable counting_bytes later sensor_1_registered))) = forbidden.
Proof.
  split; [vm_compute; reflexivity|].
  destruct (issued_token_authenticates reliable counting_bytes boot [] sensor_1
              sensor_1_answer sensor_1_registered later
              (snd (serve reliable counting_bytes later sensor_1_registered))
              "sensor-1" sensor_1_token
              reliable_genuine eq_refl eq_refl
              ltac:(vm_compute; reflexivity) eq_refl eq_refl) as [Hright Hwrong].
  split.
  - apply Hright; reflexivity.
  - apply (Hwrong _ "wrong"); try reflexivity; discriminate.
Defined.

(** C1 as stated fails: the empty string is a token value other than the
    one issued, and with it the middleware answers 401, not 403. *)
Lemma empty_token_is_401_not_403 :
  register_device reliable counting_bytes sensor_1 boot
  = (Send 201 sensor_1_answer, sensor_1_registered) /\
  member "token" sensor_1_answer = Some (JString sensor_1_token) /\
  "" <> sensor_1_token /\
  fst (authenticateDevice reliable (credentials "sensor-1" "") sensor_1_registered)
  = Send 401 (JObject [("error", JString "Device ID and token are required.")]) /\
  fst (authenticateDevice reliable (credentials "sensor-1" "") sensor_1_registered)
  <> forbidden.
Proof.
  split; [vm_compute; reflexivity|]. split; [reflexivity|].
  split; [discriminate|]. split; [vm_compute; reflexivity|].
  vm_compute. discriminate.
Qed.

(** * The service as a whole *)

(** ** Tokens and the bytes behind them *)

Lemma byte_of_hex_digits (b : byte) :
  byte_of_hex (hex_digit (N.shiftr (Byte.to_N b) 4)) (hex_digit (N.land (Byte.to_N b) 15))
  = b.
Proof. destruct b; reflexivity. Qed.

Lemma from_hex_toString_hex (buf : list byte) : from_hex (toString_hex buf) = buf.
Proof.
  induction buf as [|b buf IH]; [reflexivity|].
  cbn [toString_hex from_hex]. rewrite byte_of_hex_digits, IH. reflexivity.
Qed.

Section Service.

Variable fault_at : nat -> option Pg.Error.
Variable random_byte : nat -> byte.

Local Abbreviation await := (await fault_at).
Local Abbreviation register_device := (register_device fault_at random_byte).
Local Abbreviation authenticateDevice := (authenticateDevice fault_at).
Local Abbreviation post_upload_data := (post_upload_data fault_at).
Local Abbreviation list_devices := (list_devices fault_at).
Local Abbreviation app := (app fault_at random_byte).
Local Abbreviation serve := (serve fault_at random_byte).
Local Abbreviation served := (served fault_at random_byte).

(** X1.  The hex encoding loses nothing: decoding the token [generateToken]
    returns gives back the 16 bytes it drew, so two tokens are equal exactly
    when the bytes drawn for them are. *)
Theorem generateToken_keeps_every_bit w1 w2 :
  from_hex (fst (generateToken random_byte w1)) = map random_byte (seq (drawn w1) 16) /\
  (fst (generateToken random_byte w1) = fst (generateToken random_byte w2) <->
   map random_byte (seq (drawn w1) 16) = map random_byte (seq (drawn w2) 16)).
Proof.
  assert (Htoken : forall w, fst (generateToken random_byte w)
                             = toString_hex (map random_byte (seq (drawn w) 16)))
    by reflexivity.
  rewrite !Htoken. split; [apply from_hex_toString_hex|]. split.
  - intros H. apply (f_equal from_hex) in H.
    rewrite !from_hex_toString_hex in H. exact H.
  - intros H. rewrite H. reflexivity.
Qed.

(** ** What a route can answer *)

Lemma post_upload_data_paths req w :
  (fst (authenticateDevice req w) = Next /\
   post_upload_data req w = upload_data req (snd (authenticateDevice req w)))
  \/
  (fst (authenticateDevice req w) <> Next /\
   post_upload_data req w = authenticateDevice req w).
Proof.
  rewrite post_upload_data_eq.
  destruct (authenticateDevice req w) as [[s b|] w1]; cbn [fst snd].
  - right. split; [discriminate | reflexivity].
  - left. split; reflexivity.
Qed.

(** X2.  Every route answers every request itself (no handler falls through
    with [next()]), with a status of its row of the interface; an answer of
    400 or above carries [{ error: <message> }] and nothing else, and an
    answer below 400 has no [error] member. *)
Theorem every_route_answers route req w :
  exists s b,
    fst (app route req w) = Send s b /\
    In s (statuses route) /\
    ((400 <= s)%Z -> exists msg, b = JObject [("error", JString msg)]) /\
    ((s < 400)%Z -> member "error" b = None).
Proof.
  destruct route; cbn [Gateway.app statuses].
  - destruct (register_device_paths fault_at random_byte req w)
      as [[_ ->] | (d & _ & _ & [(e & _ & _ & ->) | [(r & _ & _ & ->) |
           [_ [(e & _ & ->) | [_ ->]]]]])];
      cbn [fst]; eexists _, _; (split; [reflexivity|]);
      (split; [cbn; auto|]); split; intros H; try lia; try reflexivity;
      eexists; reflexivity.
  - destruct (post_upload_data_paths req w) as [[Hnext ->] | [Hnot ->]].
    + destruct (upload_data_paths req (snd (authenticateDevice req w)))
        as [[_ ->] | (v & _ & _ & ->)];
        cbn [fst]; eexists _, _; (split; [reflexivity|]);
        (split; [cbn; auto|]); split; intros H; try lia; try reflexivity;
        eexists; reflexivity.
    + destruct (authenticateDevice_paths fault_at req w)
        as [[_ E] | (d & t & _ & _ & _ & _ & [(r & _ & _ & E) | [_ E]])];
        rewrite E in Hnot |- *; cbn [fst forbidden] in Hnot |- *;
        try (exfalso; apply Hnot; reflexivity);
        eexists _, _; (split; [reflexivity|]);
        (split; [cbn; auto 6|]); split; intros H; try lia;
        eexists; reflexivity.
  - destruct (list_devices_paths fault_at req w) as [(e & _ & ->) | [_ ->]];
      cbn [fst]; eexists _, _; (split; [reflexivity|]);
      (split; [cbn; auto|]); split; intros H; try lia; try reflexivity;
      eexists; reflexivity.
  - cbn. eexists _, _. split; [reflexivity|]. split; [auto|].
    split; intros H; [lia | reflexivity].
Qed.

(** ** What the table holds, at any time *)

Lemma serve_app reqs1 reqs2 : forall w,
  snd (serve (reqs1 ++ reqs2) w) = snd (serve reqs2 (snd (serve reqs1 w))).
Proof.
  induction reqs1 as [|[route req] reqs1 IH]; intros w; [reflexivity|].
  cbn [List.app Gateway.serve]. unfold bind.
  destruct (app route req w) as [o w1]. specialize (IH w1).
  destruct (serve (reqs1 ++ reqs2) w1) as [os w2].
  destruct (serve reqs1 w1) as [os1 w3]. exact IH.
Qed.

Lemma served_serve reqs w : served w -> served (snd (serve reqs w)).
Proof.
  intros (w0 & reqs0 & Hempty & ->). exists w0, (reqs0 ++ reqs)%list.
  split; [exact Hempty | symmetry; apply serve_app].
Qed.

Lemma served_app route req w : served w -> served (snd (app route req w)).
Proof.
  intros H. apply (served_serve [(route, req)]) in H.
  cbn [Gateway.serve] in H. unfold bind, ret in H.
  destruct (app route req w) as [o w1]. exact H.
Qed.

Lemma register_device_well_formed req w :
  Forall well_formed (devicesTable w) ->
  Forall well_formed (devicesTable (snd (register_device req w))).
Proof.
  intros Hwf.
  destruct (register_device_paths fault_at random_byte req w)
    as [[_ ->] | (d & _ & Hd & [(e & _ & _ & ->) | [(r & _ & _ & ->) |
         [_ [(e & _ & ->) | [_ ->]]]]])];
    cbn [fst snd logged awaited devicesTable]; try exact Hwf.
  apply Forall_app. split; [exact Hwf|]. constructor; [|constructor].
  unfold well_formed. cbn [device_id token]. split; [exact Hd|]. split.
  - rewrite length_toString_hex, length_map, length_seq. reflexivity.
  - apply lower_hex_toString_hex.
Qed.

Lemma app_well_formed route req w :
  Forall well_formed (devicesTable w) ->
  Forall well_formed (devicesTable (snd (app route req w))).
Proof.
  intros Hwf. destruct route; cbn [Gateway.app].
  - apply register_device_well_formed. exact Hwf.
  - rewrite post_upload_data_table. exact Hwf.
  - rewrite list_devices_table. exact Hwf.
  - exact Hwf.
Qed.

Lemma unique_ids_one_token rows d t t' :
  unique_ids rows -> In (mkDevice d t) rows -> In (mkDevice d t') rows -> t = t'.
Proof.
  intros Hu Ht Ht'. destruct (string_dec t' t) as [E|E]; [congruence|].
  pose proof (unique_credentials_only rows d t t' Hu Ht E) as Hnone.
  assert (Hin : In (mkDevice d t') (filter (has_credentials d t') rows)).
  { apply filter_In. split; [exact Ht' | apply has_credentials_true; reflexivity]. }
  rewrite Hnone in Hin. destruct Hin.
Qed.

(** A row of a table with unique identifiers passes the middleware, when
    its lookup is answered. *)
Lemma stored_row_authenticates req w r :
  unique_ids (devicesTable w) -> well_formed r -> In r (devicesTable w) ->
  Headers.device (headers req) = Some (device_id r) ->
  Headers.token (headers req) = Some (token r) ->
  fault_at (calls w) = None ->
  authenticateDevice req w
  = (Next, awaited (credential_check (device_id r) (token r)) (devicesTable w) w).
Proof.
  intros Hu (Hd & Hlen & _) Hin Hdev Htok Hf.
  assert (Ht : token r <> "") by (intros E; rewrite E in Hlen; discriminate Hlen).
  destruct r as [d t]. cbn [device_id token] in *.
  destruct (authenticateDevice_paths fault_at req w)
    as [[Hfalse _] | (d2 & t2 & Hd2 & Ht2 & _ & _ & [(r & _ & _ & E) | [Hnone _]])].
  - exfalso. rewrite Hdev, Htok in Hfalse.
    destruct Hfalse as [H|H]; apply ToBoolean_absent in H as [|]; congruence.
  - rewrite E. replace d2 with d by congruence. replace t2 with t by congruence.
    reflexivity.
  - exfalso. replace d2 with d in * by congruence. replace t2 with t in * by congruence.
    destruct Hnone as [(e & He) | Hno]; [congruence|].
    exact (Hno _ (unique_credentials_found _ _ _ Hu Hin)).
Qed.

(** X3.  Records are only ever added: whatever requests the service
    handles, the table it started with is still there, unchanged and in
    place, and the table has grown by one row per 201 answer of
    registration. *)
Theorem records_are_only_added reqs w :
  firstn (List.length (devicesTable w)) (devicesTable (snd (serve reqs w)))
  = devicesTable w /\
  List.length (devicesTable (snd (serve reqs w)))
  = List.length (devicesTable w)
    + List.length (filter is_registration (exchanges reqs (fst (serve reqs w)))).
Proof.
  rewrite serve_table. split.
  - rewrite firstn_app, Nat.sub_diag, firstn_all. cbn [firstn]. apply app_nil_r.
  - rewrite length_app, serve_issued. reflexivity.
Qed.

(** X4.  The existence check keeps identifiers unique: when the service
    handles its requests one after the other, in an environment that does
    not forge the row-count error, a table without duplicate identifiers
    stays so, and no identifier ever has two tokens. *)
Theorem one_token_per_identifier reqs w :
  genuine fault_at -> unique_ids (devicesTable w) ->
  unique_ids (devicesTable (snd (serve reqs w))) /\
  forall d t t',
    In (mkDevice d t) (devicesTable (snd (serve reqs w))) ->
    In (mkDevice d t') (devicesTable (snd (serve reqs w))) ->
    t = t'.
Proof.
  intros Hg Hu.
  pose proof (serve_unique_ids fault_at random_byte reqs w Hg Hu) as Hu'.
  split; [exact Hu'|]. intros d t t'. apply unique_ids_one_token. exact Hu'.
Qed.

Lemma serve_well_formed reqs : forall w,
  Forall well_formed (devicesTable w) ->
  Forall well_formed (devicesTable (snd (serve reqs w))).
Proof.
  induction reqs as [|[route req] reqs IH]; intros w Hwf; cbn [Gateway.serve].
  - exact Hwf.
  - unfold bind. pose proof (app_well_formed route req w Hwf) as Hstep.
    destruct (app route req w) as [o w1]. cbn [snd] in Hstep.
    specialize (IH w1 Hstep). destruct (serve reqs w1) as [os w2]. exact IH.
Qed.

Lemma served_rows w :
  genuine fault_at -> served w ->
  unique_ids (devicesTable w) /\ Forall well_formed (devicesTable w).
Proof.
  intros Hg (w0 & reqs & Hempty & ->). split.
  - apply serve_unique_ids; [exact Hg|]. rewrite Hempty. constructor.
  - apply serve_well_formed. rewrite Hempty. constructor.
Qed.

(** X5.  Every row the service has written, from an empty table on, has an
    identifier that is not empty and a token of 32 lowercase hexadecimal
    digits, whatever the requests and the failures of the datastore were. *)
Theorem stored_rows_are_well_formed w r :
  served w -> In r (devicesTable w) ->
  device_id r <> "" /\
  String.length (token r) = 32 /\
  string_forall is_lower_hex (token r) = true.
Proof.
  intros (w0 & reqs & Hempty & ->) Hin.
  assert (Hwf : Forall well_formed (devicesTable (snd (serve reqs w0))))
    by (apply serve_well_formed; rewrite Hempty; constructor).
  rewrite Forall_forall in Hwf. exact (Hwf r Hin).
Qed.

(** ** Requests that follow one another *)

(** X6.  What [GET /list-devices] hands out opens [POST /upload-data]: in a
    world the service has reached from an empty table, every entry of the
    [devices] array of a 200 answer, sent as the [device] and [token] headers
    of the next request, passes the middleware, provided that lookup is
    answered. *)
Theorem listed_credentials_authenticate w asking listing d t req :
  genuine fault_at -> served w ->
  fst (list_devices asking w) = Send 200 (JObject [("devices", JArray listing)]) ->
  In (JObject [("device_id", JString d); ("token", JString t)]) listing ->
  Headers.device (headers req) = Some d ->
  Headers.token (headers req) = Some t ->
  fault_at (calls (snd (list_devices asking w))) = None ->
  fst (authenticateDevice req (snd (list_devices asking w))) = Next.
Proof.
  intros Hg Hserved Hlist Hin Hd Ht Hf.
  destruct (served_rows w Hg Hserved) as [Hu Hwf].
  pose proof (list_devices_table fault_at asking w) as Htable.
  destruct (list_devices_paths fault_at asking w) as [(e & _ & E) | [_ E]];
    rewrite E in Hlist; cbn [fst] in Hlist; [discriminate Hlist|].
  injection Hlist as <-.
  apply in_map_iff in Hin as (r & Hr & Hin).
  unfold json_of_device in Hr. injection Hr as <- <-.
  rewrite Forall_forall in Hwf.
  rewrite (stored_row_authenticates req (snd (list_devices asking w)) r);
    rewrite ?Htable; auto.
Qed.

(** X7.  Register, then upload: when a registration is answered 201 with
    token T, any later upload that carries the identifier and T in its
    headers and a truthy [data] is answered 200, provided its lookup is
    answered (requests handled one after the other, from an empty table). *)
Theorem registered_device_uploads w first d sent T again between req :
  genuine fault_at -> served w ->
  Body.deviceId (body first) = Some d ->
  register_device first w = (Send 201 sent, again) ->
  member "token" sent = Some (JString T) ->
  Headers.device (headers req) = Some d ->
  Headers.token (headers req) = Some T ->
  ToBoolean (Body.data (body req)) = true ->
  fault_at (calls (snd (serve between again))) = None ->
  fst (post_upload_data req (snd (serve between again)))
  = Send 200 (JObject [("message", JString "Data uploaded successfully.")]).
Proof.
  intros Hg Hserved Hfirst Hrun Htoken Hd Ht Hdata Hf.
  assert (Hagain : served again).
  { pose proof (served_app POST_register_device first w Hserved) as H.
    cbn [Gateway.app] in H. rewrite Hrun in H. exact H. }
  assert (Hin : In (mkDevice d T) (devicesTable again)).
  { destruct (register_device_paths fault_at random_byte first w)
      as [[_ E] | (d' & Hd' & _ & [(e & _ & _ & E) | [(r & _ & _ & E) |
           [_ [(e & _ & E) | [_ E]]]]])];
      rewrite E in Hrun; try discriminate Hrun.
    remember (toString_hex (map random_byte (seq (drawn w) 16))) as T0.
    injection Hrun as <- <-. cbn in Htoken. injection Htoken as <-.
    replace d' with d by congruence. cbn [awaited devicesTable].
    apply in_or_app. right. left. reflexivity. }
  apply (serve_keeps fault_at random_byte between) in Hin.
  destruct (served_rows _ Hg (served_serve between again Hagain)) as [Hu Hwf].
  rewrite Forall_forall in Hwf.
  pose proof (stored_row_authenticates req _ _ Hu (Hwf _ Hin) Hin Hd Ht Hf) as Hauth.
  destruct (post_upload_data_paths req (snd (serve between again)))
    as [[_ ->] | [Hnot _]]; [|rewrite Hauth in Hnot; exfalso; apply Hnot; reflexivity].
  destruct (upload_data_paths req (snd (authenticateDevice req (snd (serve between again)))))
    as [[Hfalse _] | (v & _ & _ & ->)]; [congruence | reflexivity].
Qed.

(** ** Validation and its order *)

Lemma ToBoolean_data_false (data : option JSON) :
  ToBoolean data = false <->
  data = None \/ data = Some JNull \/ data = Some (JBool false) \/
  data = Some (JString "") \/
  exists x, data = Some (JNumber x) /\
            (PrimFloat.eqb x PrimFloat.zero = true \/ PrimFloat.is_nan x = true).
Proof.
  destruct data as [[|[]|x|s|items|ms]|];
    change (ToBoolean (@None JSON)) with false;
    try change (ToBoolean (Some (JNumber x)))
      with (negb (PrimFloat.eqb x PrimFloat.zero || PrimFloat.is_nan x));
    try change (ToBoolean (Some (JString s))) with (negb (s =? ""));
    cbn [ToBoolean truthiness_option truthiness_JSON]; split; intros H; auto;
    try discriminate H;
    try (destruct H as [H | [H | [H | [H | (y & H & _)]]]]; discriminate H).
  - do 4 right. exists x. split; [reflexivity|].
    apply negb_false_iff, orb_true_iff in H. exact H.
  - destruct H as [H | [H | [H | [H | (y & [= <-] & H)]]]]; try discriminate H.
    apply negb_false_iff, orb_true_iff. exact H.
  - apply negb_false_iff, String.eqb_eq in H. subst s. auto.
  - destruct H as [H | [H | [H | [[= ->] | (y & H & _)]]]]; try discriminate H.
    reflexivity.
Qed.

(** X8.  The upload handler runs only behind the middleware: the route
    answers 200 or 400 exactly when the middleware called [next()]; otherwise
    the answer and the world are the middleware's, so a request without
    credentials gets 401 whether or not it carries [data]. *)
Theorem upload_data_only_after_authentication req w :
  (status_of (fst (post_upload_data req w)) = Some 200%Z \/
   status_of (fst (post_upload_data req w)) = Some 400%Z <->
   fst (authenticateDevice req w) = Next) /\
  (fst (authenticateDevice req w) <> Next ->
   post_upload_data req w = authenticateDevice req w) /\
  (ToBoolean (Headers.device (headers req)) = false \/
   ToBoolean (Headers.token (headers req)) = false ->
   post_upload_data req w
   = (Send 401 (JObject [("error", JString "Device ID and token are required.")]), w)).
Proof.
  destruct (post_upload_data_paths req w) as [[Hnext E] | [Hnot E]]; rewrite E.
  - split; [|split].
    + split; [intros _; exact Hnext | intros _].
      destruct (upload_data_paths req (snd (authenticateDevice req w)))
        as [[_ ->] | (v & _ & _ & ->)]; cbn [fst status_of]; auto.
    + intros H. contradiction.
    + intros Hmissing. exfalso.
      destruct (authenticateDevice_paths fault_at req w)
        as [[_ E'] | (d & t & Hd & Ht & Hdne & Htne & _)].
      * rewrite E' in Hnext. discriminate Hnext.
      * rewrite Hd, Ht in Hmissing.
        destruct Hmissing as [H|H]; apply ToBoolean_absent in H as [|]; congruence.
  - split; [|split].
    + split; [|intros H; contradiction].
      destruct (authenticateDevice_paths fault_at req w)
        as [[_ E'] | (d & t & _ & _ & _ & _ & [(r & _ & _ & E') | [_ E']])];
        rewrite E' in Hnot |- *; cbn [fst status_of forbidden];
        intros [H|H]; discriminate H.
    + reflexivity.
    + intros Hmissing.
      destruct (authenticateDevice_paths fault_at req w)
        as [[_ E'] | (d & t & Hd & Ht & Hdne & Htne & _)]; [exact E'|].
      exfalso. rewrite Hd, Ht in Hmissing.
      destruct Hmissing as [H|H]; apply ToBoolean_absent in H as [|]; congruence.
Qed.

(** X9.  Behind the middleware, an upload is refused with 400 exactly when
    [data] is absent, [null], [false], the empty string, or a number that is
    zero or NaN, so that a reading of [0] cannot be uploaded; arrays and
    objects, the empty ones included, are always accepted. *)
Theorem upload_data_refuses_falsy_payloads req w :
  fst (authenticateDevice req w) = Next ->
  (status_of (fst (post_upload_data req w)) = Some 400%Z <->
   Body.data (body req) = None \/ Body.data (body req) = Some JNull \/
   Body.data (body req) = Some (JBool false) \/
   Body.data (body req) = Some (JString "") \/
   exists x, Body.data (body req) = Some (JNumber x) /\
             (PrimFloat.eqb x PrimFloat.zero = true \/ PrimFloat.is_nan x = true)) /\
  ((exists items, Body.data (body req) = Some (JArray items)) \/
   (exists members, Body.data (body req) = Some (JObject members)) ->
   status_of (fst (post_upload_data req w)) = Some 200%Z).
Proof.
  intros Hnext.
  destruct (post_upload_data_paths req w) as [[_ E] | [Hnot _]];
    [rewrite E | contradiction].
  rewrite <- ToBoolean_data_false.
  destruct (upload_data_paths req (snd (authenticateDevice req w)))
    as [[Hfalse ->] | (v & Hv & Htrue & ->)]; cbn [fst status_of].
  - split; [split; auto|]. intros [(items & H) | (ms & H)];
      rewrite H in Hfalse; discriminate Hfalse.
  - split; [|reflexivity]. split; [discriminate|].
    rewrite Hv. change (ToBoolean (Some v)) with (ToBoolean v). congruence.
Qed.


(** ** A table with duplicates *)

(** X11.  The existence check does not protect a table that already holds
    an identifier more than once: the single-row fetch then answers
    [PGRST116], which the handler takes for "not found", so that a
    registration of that identifier whose two requests are answered gets 201
    and adds one more row for it. *)
Theorem duplicated_identifier_registers_again req w d r1 r2 others :
  Body.deviceId (body req) = Some d -> d <> "" ->
  filter (has_id d) (devicesTable w) = r1 :: r2 :: others ->
  fault_at (calls w) = None -> fault_at (S (calls w)) = None ->
  let T := toString_hex (map random_byte (seq (drawn w) 16)) in
  fst (register_device req w)
  = Send 201 (JObject [("message", JString "Device registered successfully.");
                       ("deviceId", JString d); ("token", JString T)]) /\
  devicesTable (snd (register_device req w)) = (devicesTable w ++ [mkDevice d T])%list /\
  filter (has_id d) (devicesTable (snd (register_device req w)))
  = (r1 :: r2 :: others ++ [mkDevice d T])%list.
Proof.
  intros Hd Hne Hrows Hf1 Hf2 T.
  destruct (register_device_paths fault_at random_byte req w)
    as [[Hfalse _] | (d' & Hd' & _ & [(e & He & _ & _) | [(r & _ & Hr & _) |
         [_ [(e & He & _) | [_ E]]]]])].
  - rewrite Hd in Hfalse. apply ToBoolean_absent in Hfalse as [|]; congruence.
  - congruence.
  - replace d' with d in Hr by congruence. congruence.
  - congruence.
  - replace d' with d in E by congruence. rewrite E.
    cbn [fst snd awaited devicesTable]. fold T.
    split; [reflexivity|]. split; [reflexivity|].
    rewrite filter_app, Hrows. cbn [filter].
    rewrite (proj2 (has_id_true d (mkDevice d T)) eq_refl). reflexivity.
Qed.

(** ** What a request costs *)

(** X12.  Every route awaits at most two datastore requests, and every route
    but registration at most one, never an insert; the health check awaits
    none.  Random bytes are drawn by registration alone: 16 when it goes on
    to the insert, none otherwise. *)
Theorem datastore_requests_of_a_route route req w :
  exists qs,
    journal (snd (app route req w)) = (journal w ++ qs)%list /\
    calls (snd (app route req w)) = calls w + List.length qs /\
    List.length qs <= 2 /\
    drawn (snd (app route req w))
    = drawn w + (if existsb Pg.is_insert qs then 16 else 0) /\
    (route <> POST_register_device ->
     List.length qs <= 1 /\ existsb Pg.is_insert qs = false) /\
    (route = GET_health -> qs = []).
Proof.
  assert (Hnone : journal w = (journal w ++ [])%list /\ calls w = calls w + 0 /\
                  drawn w = drawn w + 0)
    by (rewrite app_nil_r; repeat split; lia).
  destruct Hnone as (Hj & Hc & Hr).
  destruct route; cbn [Gateway.app].
  - destruct (register_device_paths fault_at random_byte req w)
      as [[_ ->] | (d & _ & _ & [(e & _ & _ & ->) | [(r & _ & _ & ->) |
           [_ [(e & _ & ->) | [_ ->]]]]])];
      cbn [snd logged awaited journal calls drawn].
    + exists []. cbn [List.length existsb]. repeat split; auto; congruence.
    + exists [existence_check d]. cbn. repeat split; auto; try lia; congruence.
    + exists [existence_check d]. cbn. repeat split; auto; try lia; congruence.
    + eexists [existence_check d; Pg.Insert "devicesTable" [_]].
      rewrite <- app_assoc. cbn. repeat split; auto; try lia; congruence.
    + eexists [existence_check d; Pg.Insert "devicesTable" [_]].
      rewrite <- app_assoc. cbn. repeat split; auto; try lia; congruence.
  - destruct (post_upload_data_paths req w) as [[_ ->] | [_ ->]].
    + destruct (authenticateDevice_paths fault_at req w)
        as [[_ ->] | (d & t & _ & _ & _ & _ & [(r & _ & _ & ->) | [_ ->]])];
        cbn [snd];
        match goal with
        | |- context [upload_data req ?w1] =>
            destruct (upload_data_paths req w1) as [[_ ->] | (v & _ & _ & ->)]
        end;
        cbn [snd logged awaited journal calls drawn];
        first [ exists []; cbn [List.length existsb]; repeat split; auto; congruence
              | exists [credential_check d t]; cbn; repeat split; auto; try lia; congruence ].
    + destruct (authenticateDevice_paths fault_at req w)
        as [[_ ->] | (d & t & _ & _ & _ & _ & [(r & _ & _ & ->) | [_ ->]])];
        cbn [snd logged awaited journal calls drawn];
        first [ exists []; cbn [List.length existsb]; repeat split; auto; congruence
              | exists [credential_check d t]; cbn; repeat split; auto; try lia; congruence ].
  - destruct (list_devices_paths fault_at req w) as [(e & _ & ->) | [_ ->]];
      cbn [snd logged awaited journal calls drawn];
      exists [Pg.Select "devicesTable" "*" [] false]; cbn;
      repeat split; auto; try lia; congruence.
  - cbn. exists []. cbn [List.length existsb]. repeat split; auto; congruence.
Qed.

(** ** What reaches the console *)

(** X13.  A successful registration writes nothing to the console, so the
    token it issues is not logged there; a successful listing writes the
    whole table, tokens included, as one line. *)
Theorem tokens_are_logged_by_listing_only req w :
  (status_of (fst (register_device req w)) = Some 201%Z ->
   console (snd (register_device req w)) = console w) /\
  (status_of (fst (list_devices req w)) = Some 200%Z ->
   console (snd (list_devices req w))
   = (console w ++ [[JString "Devices fetched from Supabase:";
                     JArray (map json_of_device (devicesTable w))]])%list).
Proof.
  split.
  - destruct (register_device_paths fault_at random_byte req w)
      as [[_ ->] | (d & _ & _ & [(e & _ & _ & ->) | [(r & _ & _ & ->) |
           [_ [(e & _ & ->) | [_ ->]]]]])];
      cbn [fst snd status_of logged awaited console]; intros H;
      try discriminate H; reflexivity.
  - destruct (list_devices_paths fault_at req w) as [(e & _ & ->) | [_ ->]];
      cbn [fst snd status_of logged awaited console]; intros H;
      [discriminate H | reflexivity].
Qed.

(** ** Two registrations in flight *)

(** Cut at its [await]s and left alone, the registration handler is the
    handler: same answer, same world. *)
Lemma register_device_task_complete req w :
  (t <- register_device_task random_byte req ;; complete fault_at 2 t) w
  = (Some (fst (register_device req w)), snd (register_device req w)).
Proof.
  unfold register_device_task, Gateway.register_device, bind.
  destruct (ToBoolean (Body.deviceId (body req))); cbn [negb]; [|reflexivity].
  unfold ret at 1. cbn [complete resume]. unfold bind.
  destruct (await _ w) as [r w1]. unfold after_check.
  destruct (other_than_PGRST116 (Pg.error r)).
  { unfold bind. destruct (console_log _ w1) as [[] w2]. reflexivity. }
  destruct (ToBoolean (Pg.data r)); [reflexivity|].
  unfold bind. destruct (generateToken random_byte w1) as [T w2].
  unfold ret at 1. cbn [complete resume]. unfold bind.
  destruct (await _ w2) as [r' w3]. unfold after_insert.
  destruct (Pg.error r') as [e|]; [|reflexivity].
  unfold bind. destruct (console_log _ w3) as [[] w4]. reflexivity.
Qed.

Lemma register_device_task_start req w d :
  Body.deviceId (body req) = Some d -> d <> "" ->
  register_device_task random_byte req w
  = (Suspended (existence_check d) (after_check random_byte d), w).
Proof.
  intros Hd Hne. unfold register_device_task. rewrite Hd.
  rewrite (proj2 (ToBoolean_present (Some d))) by (exists d; auto).
  reflexivity.
Qed.

Lemma resume_after_check d w :
  fault_at (calls w) = None ->
  resume fault_at (Suspended (existence_check d) (after_check random_byte d)) w
  = match filter (has_id d) (devicesTable w) with
    | [r] =>
        (Answered (Send 400 (error_body "Device ID is already registered.")),
         awaited (existence_check d) (devicesTable w) w)
    | _ =>
        let T := toString_hex (map random_byte (seq (drawn w) 16)) in
        (Suspended (Pg.Insert "devicesTable" [mkDevice d T]) (after_insert d T),
         mkWorld (devicesTable w) (S (calls w)) (drawn w + 16) (console w)
                 (journal w ++ [existence_check d])%list)
    end.
Proof.
  intros Hf. cbn [resume]. unfold bind. rewrite await_existence_check, Hf.
  destruct (filter (has_id d) (devicesTable w)) as [|r [|r' l]]; reflexivity.
Qed.

Lemma resume_after_insert d T w :
  fault_at (calls w) = None ->
  resume fault_at (Suspended (Pg.Insert "devicesTable" [mkDevice d T]) (after_insert d T)) w
  = (Answered (Send 201 (JObject [("message", JString "Device registered successfully.");
                                  ("deviceId", JString d); ("token", JString T)])),
     awaited (Pg.Insert "devicesTable" [mkDevice d T])
             (devicesTable w ++ [mkDevice d T])%list w).
Proof.
  intros Hf. cbn [resume]. unfold bind, Gateway.await. rewrite Hf. reflexivity.
Qed.

(** X14.  The existence check and the insert are two requests, and another
    handler can run between them.  When two registrations of one
    unregistered identifier are in flight and both existence checks are
    answered before either insert, both get 201, each with its own token,
    and the table ends with two rows for the identifier; when the first
    registration is answered before the second is checked, the second
    gets 400 and the table has one row. *)
Theorem registrations_in_flight_both_succeed reqA reqB w d :
  Body.deviceId (body reqA) = Some d -> Body.deviceId (body reqB) = Some d ->
  d <> "" ->
  filter (has_id d) (devicesTable w) = [] ->
  fault_at (calls w) = None -> fault_at (S (calls w)) = None ->
  fault_at (S (S (calls w))) = None -> fault_at (S (S (S (calls w)))) = None ->
  let TA := toString_hex (map random_byte (seq (drawn w) 16)) in
  let TB := toString_hex (map random_byte (seq (drawn w + 16) 16)) in
  let created T :=
    Answered (Send 201 (JObject [("message", JString "Device registered successfully.");
                                 ("deviceId", JString d); ("token", JString T)])) in
  let racing :=
    two_registrations fault_at random_byte [First; Second; First; Second] reqA reqB w in
  let in_turn :=
    two_registrations fault_at random_byte [First; First; Second; Second] reqA reqB w in
  fst racing = (created TA, created TB) /\
  devicesTable (snd racing) = (devicesTable w ++ [mkDevice d TA; mkDevice d TB])%list /\
  fst in_turn
  = (created TA, Answered (Send 400 (error_body "Device ID is already registered."))) /\
  devicesTable (snd in_turn) = (devicesTable w ++ [mkDevice d TA])%list.
Proof.
  intros HA HB Hne Hnone H0 H1 H2 H3 TA TB created racing in_turn.
  assert (Hfound : filter (has_id d) (devicesTable w ++ [mkDevice d TA])%list
                   = [mkDevice d TA]).
  { rewrite filter_app, Hnone. cbn [filter List.app].
    rewrite (proj2 (has_id_true d (mkDevice d TA)) eq_refl). reflexivity. }
  subst racing in_turn. unfold two_registrations, bind.
  rewrite (register_device_task_start reqA w d HA Hne).
  rewrite (register_device_task_start reqB w d HB Hne).
  cbn [interleave]. unfold bind.
  rewrite (resume_after_check d w H0), Hnone. cbv zeta. fold TA.
  split; [|split; [|split]].
  - rewrite resume_after_check by exact H1. cbn [devicesTable drawn calls].
    rewrite Hnone. cbv zeta. fold TB.
    rewrite resume_after_insert by exact H2.
    rewrite resume_after_insert by exact H3.
    reflexivity.
  - rewrite resume_after_check by exact H1. cbn [devicesTable drawn calls].
    rewrite Hnone. cbv zeta. fold TB.
    rewrite resume_after_insert by exact H2.
    rewrite resume_after_insert by exact H3.
    cbn [snd ret awaited devicesTable]. rewrite <- app_assoc. reflexivity.
  - rewrite resume_after_insert by exact H1.
    rewrite resume_after_check by exact H2. cbn [awaited devicesTable].
    rewrite Hfound. reflexivity.
  - rewrite resume_after_insert by exact H1.
    rewrite resume_after_check by exact H2. cbn [awaited devicesTable].
    rewrite Hfound. reflexivity.
Qed.

(** ** One identifier, two holders *)

Lemma filter_credentials_by_id d t rows :
  filter (has_credentials d t) rows
  = filter (fun r => token r =? t) (filter (has_id d) rows).
Proof.
  induction rows as [|r rows IH]; [reflexivity|].
  cbn [filter]. unfold has_credentials at 1, has_id at 1.
  destruct (device_id r =? d); cbn [andb filter]; rewrite IH; reflexivity.
Qed.

(** X15.  The middleware matches identifier and token together: when an
    identifier has two rows with different tokens, as two registrations in
    flight leave it, each of the two tokens passes the middleware (its lookup
    answered), so that two holders share the identifier. *)
Theorem both_tokens_of_an_identifier_authenticate w d TA TB reqA reqB :
  filter (has_id d) (devicesTable w) = [mkDevice d TA; mkDevice d TB] ->
  TA <> TB -> d <> "" -> TA <> "" -> TB <> "" ->
  Headers.device (headers reqA) = Some d -> Headers.token (headers reqA) = Some TA ->
  Headers.device (headers reqB) = Some d -> Headers.token (headers reqB) = Some TB ->
  fault_at (calls w) = None ->
  fst (authenticateDevice reqA w) = Next /\ fst (authenticateDevice reqB w) = Next.
Proof.
  intros Hrows Hdiff Hd HA HB HdA HtA HdB HtB Hf.
  assert (HrowsA : filter (has_credentials d TA) (devicesTable w) = [mkDevice d TA]).
  { rewrite filter_credentials_by_id, Hrows. cbn [filter token].
    rewrite String.eqb_refl, (proj2 (String.eqb_neq TB TA)) by congruence.
    reflexivity. }
  assert (HrowsB : filter (has_credentials d TB) (devicesTable w) = [mkDevice d TB]).
  { rewrite filter_credentials_by_id, Hrows. cbn [filter token].
    rewrite String.eqb_refl, (proj2 (String.eqb_neq TA TB)) by congruence.
    reflexivity. }
  split.
  - destruct (authenticateDevice_paths fault_at reqA w)
      as [[Hfalse _] | (d2 & t2 & Hd2 & Ht2 & _ & _ & [(r & _ & _ & ->) | [Hnone _]])].
    + exfalso. rewrite HdA, HtA in Hfalse.
      destruct Hfalse as [H|H]; apply ToBoolean_absent in H as [|]; congruence.
    + reflexivity.
    + exfalso. replace d2 with d in * by congruence.
      replace t2 with TA in * by congruence.
      destruct Hnone as [(e & He) | Hno]; [congruence | exact (Hno _ HrowsA)].
  - destruct (authenticateDevice_paths fault_at reqB w)
      as [[Hfalse _] | (d2 & t2 & Hd2 & Ht2 & _ & _ & [(r & _ & _ & ->) | [Hnone _]])].
    + exfalso. rewrite HdB, HtB in Hfalse.
      destruct Hfalse as [H|H]; apply ToBoolean_absent in H as [|]; congruence.
    + reflexivity.
    + exfalso. replace d2 with d in * by congruence.
      replace t2 with TB in * by congruence.
      destruct Hnone as [(e & He) | Hno]; [congruence | exact (Hno _ HrowsB)].
Qed.

End Service.

(** * The scenario, continued *)

Lemma sensor_1_registered_served : served reliable counting_bytes sensor_1_registered.
Proof. exists boot, [(POST_register_device, sensor_1)]. split; reflexivity. Qed.

Lemma boot_served : served reliable counting_bytes boot.
Proof. exists boot, []. split; reflexivity. Qed.

(** X4 at the requests that follow the registration of ["sensor-1"]. *)
Lemma sensor_1_has_one_token :
  unique_ids (devicesTable sensor_1_registered) /\
  unique_ids (devicesTable (snd (serve reliable counting_bytes later sensor_1_registered))) /\
  forall d t t',
    In (mkDevice d t)
       (devicesTable (snd (serve reliable counting_bytes later sensor_1_registered))) ->
    In (mkDevice d t')
       (devicesTable (snd (serve reliable counting_bytes later sensor_1_registered))) ->
    t = t'.
Proof.
  assert (Hu : unique_ids (devicesTable sensor_1_registered))
    by (vm_compute; constructor; [intros [] | constructor]).
  split; [exact Hu|].
  exact (one_token_per_identifier reliable counting_bytes later sensor_1_registered
           reliable_genuine Hu).
Defined.

(** X5 at the row of ["sensor-1"]. *)
Lemma sensor_1_row_is_well_formed :
  In (mkDevice "sensor-1" sensor_1_token) (devicesTable sensor_1_registered) /\
  device_id (mkDevice "sensor-1" sensor_1_token) <> "" /\
  String.length (token (mkDevice "sensor-1" sensor_1_token)) = 32 /\
  string_forall is_lower_hex (token (mkDevice "sensor-1" sensor_1_token)) = true.
Proof.
  assert (Hin : In (mkDevice "sensor-1" sensor_1_token) (devicesTable sensor_1_registered))
    by (left; reflexivity).
  split; [exact Hin|].
  exact (stored_rows_are_well_formed reliable counting_bytes sensor_1_registered
           (mkDevice "sensor-1" sensor_1_token) sensor_1_registered_served Hin).
Defined.

(** X6: anyone lists the devices, then authenticates as ["sensor-1"]. *)
Lemma listed_sensor_1_authenticates :
  fst (list_devices reliable anonymous_upload sensor_1_registered)
  = Send 200 (JObject [("devices",
                        JArray [JObject [("device_id", JString "sensor-1");
                                         ("token", JString sensor_1_token)]])]) /\
  fst (authenticateDevice reliable (credentials "sensor-1" sensor_1_token)
         (snd (list_devices reliable anonymous_upload sensor_1_registered))) = Next.
Proof.
  split; [vm_compute; reflexivity|].
  apply (listed_credentials_authenticate reliable counting_bytes sensor_1_registered
           anonymous_upload
           [JObject [("device_id", JString "sensor-1"); ("token", JString sensor_1_token)]]
           "sensor-1" sensor_1_token (credentials "sensor-1" sensor_1_token)
           reliable_genuine sensor_1_registered_served).
  - vm_compute. reflexivity.
  - left. reflexivity.
  - reflexivity.
  - reflexivity.
  - reflexivity.
Defined.

(** X7: ["sensor-1"] registers and, after other requests, uploads a
    reading. *)
Lemma sensor_1_registers_then_uploads :
  register_device reliable counting_bytes sensor_1 boot
  = (Send 201 sensor_1_answer, sensor_1_registered) /\
  fst (post_upload_data reliable (upload "sensor-1" sensor_1_token (Some reading))
         (snd (serve reliable counting_bytes later sensor_1_registered)))
  = Send 200 (JObject [("message", JString "Data uploaded successfully.")]).
Proof.
  assert (Hrun : register_device reliable counting_bytes sensor_1 boot
                 = (Send 201 sensor_1_answer, sensor_1_registered))
    by (vm_compute; reflexivity).
  split; [exact Hrun|].
  apply (registered_device_uploads reliable counting_bytes boot sensor_1 "sensor-1"
           sensor_1_answer sensor_1_token sensor_1_registered later
           (upload "sensor-1" sensor_1_token (Some reading))
           reliable_genuine boot_served eq_refl Hrun); reflexivity.
Defined.

(** X8: a payload without credentials is answered 401. *)
Lemma anonymous_upload_is_401 :
  post_upload_data reliable anonymous_upload sensor_1_registered
  = (Send 401 (JObject [("error", JString "Device ID and token are required.")]),
     sensor_1_registered).
Proof.
  apply (proj2 (proj2 (upload_data_only_after_authentication reliable anonymous_upload
                         sensor_1_registered))).
  left. reflexivity.
Defined.

(** X9: ["sensor-1"] cannot upload a reading of zero. *)
Lemma zero_reading_is_refused :
  fst (authenticateDevice reliable zero_reading sensor_1_registered) = Next /\
  status_of (fst (post_upload_data reliable zero_reading sensor_1_registered))
  = Some 400%Z.
Proof.
  assert (Hnext : fst (authenticateDevice reliable zero_reading sensor_1_registered) = Next)
    by (vm_compute; reflexivity).
  split; [exact Hnext|].
  apply (proj1 (upload_data_refuses_falsy_payloads reliable zero_reading
                  sensor_1_registered Hnext)).
  do 4 right. exists 0%float. split; [reflexivity | left; reflexivity].
Defined.


(** X11 at the table two registrations in flight have left: ["sensor-1"]
    registers a third time. *)
Lemma raced_sensor_1_registers_again :
  filter (has_id "sensor-1") (devicesTable raced)
  = [mkDevice "sensor-1" sensor_1_token; mkDevice "sensor-1" second_token] /\
  fst (register_device reliable counting_bytes sensor_1 raced)
  = Send 201 (JObject [("message", JString "Device registered successfully.");
                       ("deviceId", JString "sensor-1");
                       ("token", JString third_token)]) /\
  List.length (filter (has_id "sensor-1")
                 (devicesTable (snd (register_device reliable counting_bytes sensor_1 raced))))
  = 3.
Proof.
  assert (Hrows : filter (has_id "sensor-1") (devicesTable raced)
                  = [mkDevice "sensor-1" sensor_1_token; mkDevice "sensor-1" second_token])
    by (vm_compute; reflexivity).
  split; [exact Hrows|].
  destruct (duplicated_identifier_registers_again reliable counting_bytes sensor_1 raced
              "sensor-1" _ _ [] eq_refl ltac:(discriminate) Hrows eq_refl eq_refl)
    as (Hanswer & _ & Hthree).
  split; [exact Hanswer | rewrite Hthree; reflexivity].
Defined.

(** X13: listing after the registration of ["sensor-1"] writes its token to
    the console; the registration itself wrote nothing. *)
Lemma listing_logs_the_token_of_sensor_1 :
  console sensor_1_registered = [] /\
  console (snd (list_devices reliable anonymous_upload sensor_1_registered))
  = [[JString "Devices fetched from Supabase:";
      JArray [JObject [("device_id", JString "sensor-1");
                       ("token", JString sensor_1_token)]]]].
Proof.
  destruct (tokens_are_logged_by_listing_only reliable counting_bytes
              sensor_1 boot) as [Hregister _].
  destruct (tokens_are_logged_by_listing_only reliable counting_bytes
              anonymous_upload sensor_1_registered) as [_ Hlist].
  split.
  - apply Hregister. vm_compute. reflexivity.
  - rewrite Hlist by (vm_compute; reflexivity). reflexivity.
Defined.

(** X14 at two registrations of ["sensor-1"] in flight after boot: the
    table they leave is the one of [raced]. *)
Lemma two_sensor_1_in_flight :
  devicesTable
    (snd (two_registrations reliable counting_bytes [First; Second; First; Second]
            sensor_1 sensor_1 boot))
  = devicesTable raced /\
  devicesTable
    (snd (two_registrations reliable counting_bytes [First; First; Second; Second]
            sensor_1 sensor_1 boot))
  = [mkDevice "sensor-1" sensor_1_token].
Proof.
  destruct (registrations_in_flight_both_succeed reliable counting_bytes sensor_1 sensor_1
              boot "sensor-1" eq_refl eq_refl ltac:(discriminate)
              eq_refl eq_refl eq_refl eq_refl eq_refl)
    as (_ & Hracing & _ & Hin_turn).
  split; [rewrite Hracing | rewrite Hin_turn]; reflexivity.
Defined.

(** X15 at the table two registrations in flight have left. *)
Lemma raced_tokens_both_authenticate :
  filter (has_id "sensor-1") (devicesTable raced)
  = [mkDevice "sensor-1" sensor_1_token; mkDevice "sensor-1" second_token] /\
  fst (authenticateDevice reliable (credentials "sensor-1" sensor_1_token) raced) = Next /\
  fst (authenticateDevice reliable (credentials "sensor-1" second_token) raced) = Next.
Proof.
  assert (Hrows : filter (has_id "sensor-1") (devicesTable raced)
                  = [mkDevice "sensor-1" sensor_1_token; mkDevice "sensor-1" second_token])
    by (vm_compute; reflexivity).
  split; [exact Hrows|].
  apply (both_tokens_of_an_identifier_authenticate reliable raced "sensor-1"
           sensor_1_token second_token
           (credentials "sensor-1" sensor_1_token) (credentials "sensor-1" second_token)
           Hrows); try reflexivity; discriminate.
Defined.
